(** * Custom entity and edge types: a shallow embedding of
    [mcp_server/custom_types_utils.py]

    The module turns user-written configuration (JSON text or already decoded
    dictionaries) into record-type descriptors and into the table of edge
    types allowed between pairs of entity types.

    Conventions of the embedding:
    - a Python [str] is a [string]; every character stands for one code point
      below 256;
    - a Python [dict] is an association list in insertion order, updated in
      place on an existing key ([dict_set]);
    - a Python function that may raise and that logs is a computation in the
      monad [M]: it takes the log written so far and gives back either a
      value or the exception raised, together with the extended log;
    - [json.loads], pydantic's refusals and the text of a float are
      libraries' behaviour, taken as section variables. *)

From Stdlib Require Import String Ascii List ZArith Bool Arith Lia.
From Stdlib Require Import DecimalString PrimFloat.
Import ListNotations.
Open Scope list_scope.
Open Scope string_scope.

Set Implicit Arguments.

(** ** Python strings *)

Module PyStr.

(** The double-quote character, [chr(34)]. *)
Definition dquote : string := String (ascii_of_nat 34) EmptyString.

(** [s.startswith(prefix)] *)
Fixpoint startswith (s prefix : string) {struct prefix} : bool :=
  match prefix with
  | EmptyString => true
  | String p prefix' =>
      match s with
      | EmptyString => false
      | String c s' => Ascii.eqb c p && startswith s' prefix'
      end
  end.

(** [s[n:]] for [0 <= n] *)
Fixpoint drop (n : nat) (s : string) : string :=
  match n, s with
  | O, _ => s
  | S _, EmptyString => EmptyString
  | S n', String _ s' => drop n' s'
  end.

(** [s.endswith(suffix)] *)
Definition endswith (s suffix : string) : bool :=
  (String.length suffix <=? String.length s)%nat
  && String.eqb (drop (String.length s - String.length suffix) s) suffix.

(** Index normalisation of a slice bound: a negative bound counts from the
    end, and the result is clamped to [0 .. len]. *)
Definition slice_index (len i : Z) : Z :=
  let i' := if (i <? 0)%Z then (i + len)%Z else i in
  Z.max 0 (Z.min len i').

(** [s[start:stop]] *)
Definition slice (s : string) (start stop : Z) : string :=
  let len := Z.of_nat (String.length s) in
  let a := slice_index len start in
  let b := slice_index len stop in
  substring (Z.to_nat a) (Z.to_nat (b - a)) s.

(** [c.isspace()] on the code points below 256: TAB, LF, VT, FF, CR,
    FS, GS, RS, US, SPACE, NEL and NBSP. *)
Definition isspace (c : ascii) : bool :=
  let n := nat_of_ascii c in
  ((9 <=? n) && (n <=? 13) || (28 <=? n) && (n <=? 32)
   || (n =? 133) || (n =? 160))%nat.

(** [c in chars] *)
Fixpoint mem (c : ascii) (chars : string) : bool :=
  match chars with
  | EmptyString => false
  | String d chars' => Ascii.eqb c d || mem c chars'
  end.

(** Removal of the leading characters that satisfy [p]. *)
Fixpoint lstrip_by (p : ascii -> bool) (s : string) : string :=
  match s with
  | EmptyString => EmptyString
  | String c s' => if p c then lstrip_by p s' else s
  end.

(** Removal of the trailing characters that satisfy [p]. *)
Fixpoint rstrip_by (p : ascii -> bool) (s : string) : string :=
  match s with
  | EmptyString => EmptyString
  | String c s' =>
      match rstrip_by p s' with
      | EmptyString => if p c then EmptyString else String c EmptyString
      | r => String c r
      end
  end.

Definition strip_by (p : ascii -> bool) (s : string) : string :=
  rstrip_by p (lstrip_by p s).

(** [s.strip()] *)
Definition strip (s : string) : string := strip_by isspace s.

(** [s.strip(chars)] *)
Definition strip_chars (s chars : string) : string :=
  strip_by (fun c => mem c chars) s.

(** Puts [c] in front of the first part of a split. *)
Definition cons_head (c : ascii) (parts : list string) : list string :=
  match parts with
  | [] => [String c EmptyString]
  | p :: ps => String c p :: ps
  end.

(** [s.split(sep)] for a non-empty [sep], scanning from the left; [skip]
    counts the characters of a separator just found that are still to be
    passed over. *)
Fixpoint split_from (sep : string) (skip : nat) (s : string) : list string :=
  match s with
  | EmptyString => [EmptyString]
  | String c s' =>
      match skip with
      | S k => split_from sep k s'
      | O =>
          if startswith s sep
          then EmptyString :: split_from sep (String.length sep - 1) s'
          else cons_head c (split_from sep 0 s')
      end
  end.

Definition split (s sep : string) : list string := split_from sep 0 s.

(** [sep.join(parts)] *)
Fixpoint join (sep : string) (parts : list string) : string :=
  match parts with
  | [] => EmptyString
  | [p] => p
  | p :: ps => p ++ sep ++ join sep ps
  end.

(** [str(z)] for an [int] *)
Definition of_int (z : Z) : string := NilZero.string_of_int (Z.to_int z).

(** [repr] of a list of strings none of which needs escaping or contains a
    quote: the strings between single quotes, separated by comma and
    space, between brackets. *)
Definition repr_plain_list (l : list string) : string :=
  "[" ++ join ", " (map (fun s => "'" ++ s ++ "'") l) ++ "]".

End PyStr.

(** ** Python values, exceptions and dictionaries *)

(** The values a caller's dictionary or a decoded JSON text is made of. *)
#[warnings="-register-all"]
Inductive pyval : Type :=
| PyNone
| PyBool (b : bool)
| PyInt (z : Z)
| PyFloat (f : float)
| PyStr (s : string)
| PyList (l : list pyval)
| PyDict (d : list (string * pyval)).

(** A [dict] with [str] keys, in insertion order. *)
Definition pydict (V : Type) : Type := list (string * V).

(** [type(v).__name__] *)
Definition type_name (v : pyval) : string :=
  match v with
  | PyNone => "NoneType"
  | PyBool _ => "bool"
  | PyInt _ => "int"
  | PyFloat _ => "float"
  | PyStr _ => "str"
  | PyList _ => "list"
  | PyDict _ => "dict"
  end.

(** [str(type(v))], as an f-string prints [{type(v)}] *)
Definition type_repr (v : pyval) : string := "<class '" ++ type_name v ++ "'>".

(** [bool(v)]: the test of [if v:] *)
Definition truthy (v : pyval) : bool :=
  match v with
  | PyNone => false
  | PyBool b => b
  | PyInt z => negb (z =? 0)%Z
  | PyFloat f => negb (PrimFloat.eqb f PrimFloat.zero)
  | PyStr s => negb (String.eqb s EmptyString)
  | PyList l => match l with [] => false | _ => true end
  | PyDict d => match d with [] => false | _ => true end
  end.

(** [isinstance(v, list)] *)
Definition is_list (v : pyval) : bool :=
  match v with PyList _ => true | _ => false end.

(** The values that can be looked up in a [dict]. *)
Inductive hashable : Type :=
| HNone
| HBool (b : bool)
| HInt (z : Z)
| HFloat (f : float)
| HStr (s : string).

(** The exceptions of the module: the class raised and its message.
    [OtherError] stands for any further subclass of [Exception] that a
    library raises. *)
Inductive exn : Type :=
| ValueError (msg : string)
| TypeError (msg : string)
| AttributeError (msg : string)
| OtherError (cls : string) (msg : string).

(** [str(e)] *)
Definition exn_str (e : exn) : string :=
  match e with
  | ValueError msg | TypeError msg | AttributeError msg | OtherError _ msg => msg
  end.

Section Dict.
Variables (K V : Type) (eqb : K -> K -> bool).

(** [d.get(k)] *)
Fixpoint dict_get (k : K) (d : list (K * V)) : option V :=
  match d with
  | [] => None
  | (k', v) :: d' => if eqb k' k then Some v else dict_get k d'
  end.

(** [d[k] = v]: an existing key keeps its place and takes the new value, a
    new key goes to the end. *)
Fixpoint dict_set (k : K) (v : V) (d : list (K * V)) : list (K * V) :=
  match d with
  | [] => [(k, v)]
  | (k', v') :: d' =>
      if eqb k' k then (k', v) :: d' else (k', v') :: dict_set k v d'
  end.

End Dict.

(** Equality of two [(str, str)] tuples. *)
Definition pair_eqb (p q : string * string) : bool :=
  String.eqb (fst p) (fst q) && String.eqb (snd p) (snd q).

(** ** Effects: exceptions and the logger *)

(** What [logger.info] is called with. *)
Inductive log_record : Type :=
| CreatedEntityType (entity_name : string)
| CreatedEdgeMapping (key_tuple : string * string) (edge_list : pyval).

Inductive outcome (A : Type) : Type :=
| Return (a : A)
| Raise (e : exn).
Arguments Return {A} a.
Arguments Raise {A} e.

Definition M (A : Type) : Type := list log_record -> outcome A * list log_record.

Definition ret {A} (a : A) : M A := fun log => (Return a, log).

Definition raise {A} (e : exn) : M A := fun log => (Raise e, log).

Definition bind {A B} (m : M A) (f : A -> M B) : M B :=
  fun log =>
    match m log with
    | (Return a, log') => f a log'
    | (Raise e, log') => (Raise e, log')
    end.

(** [try: m  except Exception as e: h e] *)
Definition try_except {A} (m : M A) (h : exn -> M A) : M A :=
  fun log =>
    match m log with
    | (Return a, log') => (Return a, log')
    | (Raise e, log') => h e log'
    end.

Definition logger_info (r : log_record) : M unit :=
  fun log => (Return tt, (log ++ [r])%list).

Notation "x <- m ;; k" := (bind m (fun x => k))
  (at level 61, m at next level, right associativity).

(** [for k, v in items: acc = body k v acc] *)
Fixpoint for_items {K V S} (items : list (K * V)) (body : K -> V -> S -> M S)
  (acc : S) : M S :=
  match items with
  | [] => ret acc
  | (k, v) :: items' => acc' <- body k v acc ;; for_items items' body acc'
  end.

(** [v.items()] *)
Definition py_items (v : pyval) : M (pydict pyval) :=
  match v with
  | PyDict d => ret d
  | _ => raise (AttributeError
                  ("'" ++ type_name v ++ "' object has no attribute 'items'"))
  end.

(** The hash taken by [v in d] and [d[v]]. *)
Definition py_hash (v : pyval) : M hashable :=
  match v with
  | PyNone => ret HNone
  | PyBool b => ret (HBool b)
  | PyInt z => ret (HInt z)
  | PyFloat f => ret (HFloat f)
  | PyStr s => ret (HStr s)
  | PyList _ | PyDict _ =>
      raise (TypeError ("unhashable type: '" ++ type_name v ++ "'"))
  end.

(** ** The record types pydantic builds *)

(** The types a field may be declared with. *)
Inductive pytype : Type :=
| Tstr | Tint | Tfloat | Tbool | Tlist | Tdict | TAny
| TList (elt : pytype)
| TDict (key value : pytype).

(** The second component of a field definition [(type, default)]; the
    ellipsis [...] marks a field with no default. *)
Inductive field_default : Type :=
| Ellipsis
| Default (v : pyval).

(** What a model reports of one field ([model_fields[name]]). *)
Record FieldInfo : Type := {
  annotation : pytype;
  is_required : bool
}.

(** A model class: its name, its fields in order and its [__doc__]. *)
Record Model : Type := {
  model_name : string;
  model_fields : pydict FieldInfo;
  model_doc : pyval
}.

(** [model.__doc__ = docstring] *)
Definition set_doc (model : Model) (docstring : pyval) : Model :=
  {| model_name := model_name model;
     model_fields := model_fields model;
     model_doc := docstring |}.

Definition field_info (d : pytype * field_default) : FieldInfo :=
  {| annotation := fst d;
     is_required := match snd d with Ellipsis => true | Default _ => false end |}.

(** ** The module *)

(** [TYPE_MAPPING] *)
Definition TYPE_MAPPING : pydict pytype :=
  [ ("str", Tstr);
    ("int", Tint);
    ("float", Tfloat);
    ("bool", Tbool);
    ("list", Tlist);
    ("dict", Tdict);
    ("List[str]", TList Tstr);
    ("List[int]", TList Tint);
    ("List[float]", TList Tfloat);
    ("Dict[str, Any]", TDict Tstr TAny);
    ("Dict[str, str]", TDict Tstr Tstr);
    ("Dict[str, int]", TDict Tstr Tint) ].

(** [TYPE_MAPPING.get(h)]: only a [str] can equal one of the keys. *)
Definition TYPE_MAPPING_get (h : hashable) : option pytype :=
  match h with
  | HStr s => dict_get String.eqb s TYPE_MAPPING
  | _ => None
  end.

(** [list(TYPE_MAPPING.keys())] as an f-string prints it. *)
Definition supported_types : string :=
  PyStr.repr_plain_list (map fst TYPE_MAPPING).

(** What [json.loads] gives: the decoded value, or [JSONDecodeError] with
    its text. *)
Inductive json_result : Type :=
| Decoded (v : pyval)
| JSONDecodeError (msg : string).

(** ** A reference JSON reader and writer

    The theorems below hold for any [json.loads]. This reader and this writer
    give one to run them with: JSON texts without fractions, exponents,
    [NaN], [Infinity] and code points from 256 on, read as [json.loads] reads
    them (a repeated key keeps its first place and its last value) and
    written as [json.dumps] writes them by default. *)

Module JsonRef.

Definition dq : ascii := ascii_of_nat 34.
Definition backslash : ascii := ascii_of_nat 92.

Definition is_ws (c : ascii) : bool :=
  let n := nat_of_ascii c in
  ((n =? 32) || (n =? 9) || (n =? 10) || (n =? 13))%nat.

Fixpoint skip_ws (s : string) : string :=
  match s with
  | String c s' => if is_ws c then skip_ws s' else s
  | EmptyString => s
  end.

Definition digit_of (c : ascii) : option Z :=
  let n := nat_of_ascii c in
  if ((48 <=? n) && (n <=? 57))%nat then Some (Z.of_nat (n - 48)) else None.

Definition hex_of (c : ascii) : option nat :=
  let n := nat_of_ascii c in
  if ((48 <=? n) && (n <=? 57))%nat then Some (n - 48)%nat
  else if ((97 <=? n) && (n <=? 102))%nat then Some (n - 87)%nat
  else if ((65 <=? n) && (n <=? 70))%nat then Some (n - 55)%nat
  else None.

Definition hex_digit (n : nat) : ascii :=
  ascii_of_nat (if (n <? 10)%nat then 48 + n else 87 + n).

(** The character a one-letter escape stands for. *)
Definition unescape (c : ascii) : option ascii :=
  let n := nat_of_ascii c in
  if (n =? 34)%nat then Some dq
  else if (n =? 92)%nat then Some backslash
  else if (n =? 47)%nat then Some c
  else if (n =? 98)%nat then Some (ascii_of_nat 8)
  else if (n =? 102)%nat then Some (ascii_of_nat 12)
  else if (n =? 110)%nat then Some (ascii_of_nat 10)
  else if (n =? 114)%nat then Some (ascii_of_nat 13)
  else if (n =? 116)%nat then Some (ascii_of_nat 9)
  else None.

(** A string literal, read from just after its opening quote: its content
    and the text after its closing quote. *)
Fixpoint read_string (s : string) : option (string * string) :=
  match s with
  | EmptyString => None
  | String c s' =>
      if Ascii.eqb c dq then Some (EmptyString, s')
      else if Ascii.eqb c backslash then
        match s' with
        | String e s'' =>
            if Ascii.eqb e "u" then
              match s'' with
              | String h3 (String h2 (String h1 (String h0 s3))) =>
                  match hex_of h3, hex_of h2, hex_of h1, hex_of h0 with
                  | Some 0%nat, Some 0%nat, Some a, Some b =>
                      match read_string s3 with
                      | Some (str, rest) =>
                          Some (String (ascii_of_nat (16 * a + b)) str, rest)
                      | None => None
                      end
                  | _, _, _, _ => None
                  end
              | _ => None
              end
            else
              match unescape e, read_string s'' with
              | Some ch, Some (str, rest) => Some (String ch str, rest)
              | _, _ => None
              end
        | EmptyString => None
        end
      else if (nat_of_ascii c <? 32)%nat then None
      else
        match read_string s' with
        | Some (str, rest) => Some (String c str, rest)
        | None => None
        end
  end.

Fixpoint read_digits (s : string) (acc : Z) : Z * string :=
  match s with
  | String c s' =>
      match digit_of c with
      | Some d => read_digits s' (10 * acc + d)%Z
      | None => (acc, s)
      end
  | EmptyString => (acc, s)
  end.

(** A number without sign: [0], or digits that do not start with [0]; a
    fraction or an exponent after it is refused. *)
Definition read_nat (s : string) : option (Z * string) :=
  match s with
  | String c s' =>
      match digit_of c with
      | Some d =>
          let r := if (d =? 0)%Z then (0%Z, s') else read_digits s' d in
          match snd r with
          | String n _ =>
              if Ascii.eqb n "." || Ascii.eqb n "e" || Ascii.eqb n "E"
              then None else Some r
          | EmptyString => Some r
          end
      | None => None
      end
  | EmptyString => None
  end.

(** A value; the lists and the objects are read with their closing bracket.
    [read_array] and [read_object] start where an element or a key is
    expected and carry what they have read so far. *)
Fixpoint read_value (fuel : nat) (s : string) : option (pyval * string) :=
  match fuel with
  | O => None
  | S fuel' =>
      match skip_ws s with
      | EmptyString => None
      | String c s' as t =>
          if Ascii.eqb c dq then
            match read_string s' with
            | Some (str, rest) => Some (PyStr str, rest)
            | None => None
            end
          else if Ascii.eqb c "[" then
            match skip_ws s' with
            | String "]" rest => Some (PyList [], rest)
            | _ => read_array fuel' s' []
            end
          else if Ascii.eqb c "{" then
            match skip_ws s' with
            | String "}" rest => Some (PyDict [], rest)
            | _ => read_object fuel' s' []
            end
          else if Ascii.eqb c "-" then
            match read_nat s' with
            | Some (z, rest) => Some (PyInt (- z), rest)
            | None => None
            end
          else if PyStr.startswith t "null" then Some (PyNone, PyStr.drop 4 t)
          else if PyStr.startswith t "true"
               then Some (PyBool true, PyStr.drop 4 t)
          else if PyStr.startswith t "false"
               then Some (PyBool false, PyStr.drop 5 t)
          else
            match read_nat t with
            | Some (z, rest) => Some (PyInt z, rest)
            | None => None
            end
      end
  end
with read_array (fuel : nat) (s : string) (acc : list pyval)
  : option (pyval * string) :=
  match fuel with
  | O => None
  | S fuel' =>
      match read_value fuel' s with
      | Some (v, rest) =>
          match skip_ws rest with
          | String "," rest' => read_array fuel' rest' (acc ++ [v])%list
          | String "]" rest' => Some (PyList (acc ++ [v])%list, rest')
          | _ => None
          end
      | None => None
      end
  end
with read_object (fuel : nat) (s : string) (acc : pydict pyval)
  : option (pyval * string) :=
  match fuel with
  | O => None
  | S fuel' =>
      match skip_ws s with
      | String c s' =>
          if Ascii.eqb c dq then
            match read_string s' with
            | Some (key, rest) =>
                match skip_ws rest with
                | String ":" rest' =>
                    match read_value fuel' rest' with
                    | Some (v, rest2) =>
                        let acc' := dict_set String.eqb key v acc in
                        match skip_ws rest2 with
                        | String "," rest3 => read_object fuel' rest3 acc'
                        | String "}" rest3 => Some (PyDict acc', rest3)
                        | _ => None
                        end
                    | None => None
                    end
                | _ => None
                end
            | None => None
            end
          else None
      | EmptyString => None
      end
  end.

(** [json.loads(s)]; the message of a refusal is not detailed. *)
Definition loads (s : string) : json_result :=
  match read_value (2 * String.length s + 2) s with
  | Some (v, rest) =>
      match skip_ws rest with
      | EmptyString => Decoded v
      | _ => JSONDecodeError "Extra data"
      end
  | None => JSONDecodeError "Expecting value"
  end.

(** One character of a string literal, as written with [ensure_ascii]. *)
Definition escape (c : ascii) : string :=
  let n := nat_of_ascii c in
  if (n =? 34)%nat then String backslash (String dq EmptyString)
  else if (n =? 92)%nat then String backslash (String backslash EmptyString)
  else if (n =? 10)%nat then String backslash "n"
  else if (n =? 13)%nat then String backslash "r"
  else if (n =? 9)%nat then String backslash "t"
  else if (n =? 8)%nat then String backslash "b"
  else if (n =? 12)%nat then String backslash "f"
  else if ((n <? 32) || (126 <? n))%nat then
    String backslash
      (String "u" (String "0" (String "0"
        (String (hex_digit (n / 16)) (String (hex_digit (n mod 16)) EmptyString)))))
  else String c EmptyString.

Fixpoint write_chars (s : string) : string :=
  match s with
  | EmptyString => EmptyString
  | String c s' => escape c ++ write_chars s'
  end.

Definition write_string (s : string) : string :=
  String dq (write_chars s ++ String dq EmptyString).

(** [json.dumps(v)], with [float_str] for the text of a float. *)
Fixpoint dumps (float_str : float -> string) (v : pyval) : string :=
  match v with
  | PyNone => "null"
  | PyBool true => "true"
  | PyBool false => "false"
  | PyInt z => PyStr.of_int z
  | PyFloat f => float_str f
  | PyStr s => write_string s
  | PyList l =>
      "[" ++ PyStr.join ", " (map (dumps float_str) l) ++ "]"
  | PyDict d =>
      "{" ++ PyStr.join ", "
               (map (fun kv => write_string (fst kv) ++ ": "
                               ++ dumps float_str (snd kv)) d)
      ++ "}"
  end.

End JsonRef.

Section CustomTypes.

(** [json.loads] on a [str]. *)
Variable json_loads : string -> json_result.

(** The exception pydantic's [create_model] raises for a model name and its
    field definitions, if it refuses them. *)
Variable pydantic_rejects :
  string -> pydict (pytype * field_default) -> option exn.

(** [str(f)] for a [float]. *)
Variable float_str : float -> string.

(** [create_model(name, **field_definitions)] *)
Definition create_model (name : string)
  (field_definitions : pydict (pytype * field_default)) : M Model :=
  match pydantic_rejects name field_definitions with
  | Some e => raise e
  | None =>
      ret {| model_name := name;
             model_fields :=
               map (fun fd => (fst fd, field_info (snd fd))) field_definitions;
             model_doc := PyNone |}
  end.

(** [str(h)], as an f-string prints a value. *)
Definition hashable_str (h : hashable) : string :=
  match h with
  | HNone => "None"
  | HBool true => "True"
  | HBool false => "False"
  | HInt z => PyStr.of_int z
  | HFloat f => float_str f
  | HStr s => s
  end.

(** The messages of the [raise] statements. *)
Definition msg_invalid_json_entity (e : string) : string :=
  "Invalid JSON format for entity types: " ++ e.

Definition msg_must_have_fields (entity_name : string) : string :=
  "Entity '" ++ entity_name ++ "' must have 'fields' key".

Definition msg_unsupported_type (field_type_str : hashable)
  (field_name entity_name : string) : string :=
  "Unsupported field type '" ++ hashable_str field_type_str
  ++ "' for field '" ++ field_name
  ++ "' in entity '" ++ entity_name
  ++ "'. Supported types: " ++ supported_types.

Definition msg_create_failed (entity_name : string) (e : exn) : string :=
  "Failed to create entity model '" ++ entity_name ++ "': " ++ exn_str e.

Definition msg_edge_types_failed (e : exn) : string :=
  "Failed to parse edge types: " ++ exn_str e.

Definition msg_invalid_json_mappings (e : string) : string :=
  "Invalid JSON format for edge mappings: " ++ e.

Definition msg_key_format (key_str : string) : string :=
  "Invalid edge mapping key format: '" ++ key_str
  ++ "'. Expected format: " ++ PyStr.dquote ++ "('Source', 'Target')"
  ++ PyStr.dquote.

Definition msg_key_arity (key_str : string) : string :=
  "Edge mapping key must have exactly 2 entities: '" ++ key_str ++ "'".

Definition msg_not_a_list (key_str : string) (edge_list : pyval) : string :=
  "Edge list for key '" ++ key_str ++ "' must be a list, got: "
  ++ type_repr edge_list.

Definition msg_mapping_failed (key_str : string) (e : exn) : string :=
  "Failed to parse edge mapping key '" ++ key_str ++ "': " ++ exn_str e.

(** [parse_json_to_entity_types(json_str)] *)
Definition parse_json_to_entity_types (json_str : string)
  : M (pydict Model) :=
  entity_data <-
    match json_loads json_str with
    | Decoded v => ret v
    | JSONDecodeError e => raise (ValueError (msg_invalid_json_entity e))
    end ;;
  entity_items <- py_items entity_data ;;
  for_items entity_items
    (fun entity_name entity_config entity_types =>
       match entity_config with
       | PyDict config =>
           match dict_get String.eqb "fields" config with
           | Some fields =>
               let docstring :=
                 match dict_get String.eqb "docstring" config with
                 | Some d => d
                 | None => PyStr EmptyString
                 end in
               field_items <- py_items fields ;;
               pydantic_fields <-
                 for_items field_items
                   (fun field_name field_type_str pydantic_fields =>
                      h <- py_hash field_type_str ;;
                      match TYPE_MAPPING_get h with
                      | None =>
                          raise (TypeError
                                   (msg_unsupported_type h field_name entity_name))
                      | Some ty =>
                          ret (dict_set String.eqb field_name (ty, Ellipsis)
                                 pydantic_fields)
                      end)
                   [] ;;
               try_except
                 (model <- create_model entity_name pydantic_fields ;;
                  let model :=
                    if truthy docstring then set_doc model docstring
                    else model in
                  let entity_types :=
                    dict_set String.eqb entity_name model entity_types in
                  _ <- logger_info (CreatedEntityType entity_name) ;;
                  ret entity_types)
                 (fun e =>
                    raise (ValueError (msg_create_failed entity_name e)))
           | None => raise (ValueError (msg_must_have_fields entity_name))
           end
       | _ => raise (ValueError (msg_must_have_fields entity_name))
       end)
    [].

(** [parse_json_to_edge_types(json_str)] *)
Definition parse_json_to_edge_types (json_str : string)
  : M (pydict Model) :=
  try_except (parse_json_to_entity_types json_str)
    (fun e => raise (ValueError (msg_edge_types_failed e))).

(** The stripped parts of a key: the content [key_str[2:-2]] is split on
    quote-comma, and each part is stripped of white space, then of single and
    double quotes. *)
Definition key_parts (key_str : string) : list string :=
  let content := PyStr.slice key_str 2 (-2) in
  map (fun part => PyStr.strip_chars (PyStr.strip part) ("'" ++ PyStr.dquote))
    (PyStr.split content "',").

(** The table of edge mappings: [(source, target)] to the edge list. *)
Definition edge_table : Type := list ((string * string) * pyval).

(** [parse_json_to_edge_mappings(json_str)] *)
Definition parse_json_to_edge_mappings (json_str : string) : M edge_table :=
  edge_data <-
    match json_loads json_str with
    | Decoded v => ret v
    | JSONDecodeError e => raise (ValueError (msg_invalid_json_mappings e))
    end ;;
  edge_items <- py_items edge_data ;;
  for_items edge_items
    (fun key_str edge_list edge_mappings =>
       if negb (PyStr.startswith key_str "('")
          || negb (PyStr.endswith key_str "')")
       then raise (ValueError (msg_key_format key_str))
       else
         try_except
           (match key_parts key_str with
            | [part0; part1] =>
                let key_tuple := (part0, part1) in
                if negb (is_list edge_list)
                then raise (ValueError (msg_not_a_list key_str edge_list))
                else
                  let edge_mappings :=
                    dict_set pair_eqb key_tuple edge_list edge_mappings in
                  _ <- logger_info (CreatedEdgeMapping key_tuple edge_list) ;;
                  ret edge_mappings
            | _ => raise (ValueError (msg_key_arity key_str))
            end)
           (fun e => raise (ValueError (msg_mapping_failed key_str e))))
    [].

(** [create_entity_types_from_dict(entity_data)] *)
Definition create_entity_types_from_dict (entity_data : pydict pyval)
  : M (pydict Model) :=
  for_items entity_data
    (fun entity_name entity_config entity_types =>
       match entity_config with
       | PyDict config =>
           match dict_get String.eqb "fields" config with
           | Some fields =>
               let docstring :=
                 match dict_get String.eqb "docstring" config with
                 | Some d => d
                 | None => PyStr EmptyString
                 end in
               field_items <- py_items fields ;;
               pydantic_fields <-
                 for_items field_items
                   (fun field_name field_type_str pydantic_fields =>
                      h <- py_hash field_type_str ;;
                      match TYPE_MAPPING_get h with
                      | None =>
                          raise (TypeError
                                   (msg_unsupported_type h field_name entity_name))
                      | Some ty =>
                          ret (dict_set String.eqb field_name (ty, Ellipsis)
                                 pydantic_fields)
                      end)
                   [] ;;
               try_except
                 (model <- create_model entity_name pydantic_fields ;;
                  let model :=
                    if truthy docstring then set_doc model docstring
                    else model in
                  let entity_types :=
                    dict_set String.eqb entity_name model entity_types in
                  _ <- logger_info (CreatedEntityType entity_name) ;;
                  ret entity_types)
                 (fun e =>
                    raise (ValueError (msg_create_failed entity_name e)))
           | None => raise (ValueError (msg_must_have_fields entity_name))
           end
       | _ => raise (ValueError (msg_must_have_fields entity_name))
       end)
    [].

(** [convert_edge_mappings(edge_data)] *)
Definition convert_edge_mappings (edge_data : pydict pyval) : M edge_table :=
  for_items edge_data
    (fun key_str edge_list edge_mappings =>
       if negb (PyStr.startswith key_str "('")
          || negb (PyStr.endswith key_str "')")
       then raise (ValueError (msg_key_format key_str))
       else
         try_except
           (match key_parts key_str with
            | [part0; part1] =>
                let key_tuple := (part0, part1) in
                if negb (is_list edge_list)
                then raise (ValueError (msg_not_a_list key_str edge_list))
                else
                  let edge_mappings :=
                    dict_set pair_eqb key_tuple edge_list edge_mappings in
                  _ <- logger_info (CreatedEdgeMapping key_tuple edge_list) ;;
                  ret edge_mappings
            | _ => raise (ValueError (msg_key_arity key_str))
            end)
           (fun e => raise (ValueError (msg_mapping_failed key_str e))))
    [].

End CustomTypes.


(** ** Inputs that the properties are run on *)

Module Sample.

(** A pydantic that refuses nothing. *)
Definition accepts : string -> pydict (pytype * field_default) -> option exn :=
  fun _ _ => None.

(** The samples hold no float. *)
Definition float_str (f : float) : string := "nan".

(** The JSON text of a value. *)
Definition text (v : pyval) : string := JsonRef.dumps float_str v.

Definition unknown_edge_field : pydict pyval :=
  [("Edge", PyDict [("fields", PyDict [("x", PyStr "string")])])].

Definition person : pydict pyval :=
  [("Person",
    PyDict [("fields", PyDict [("name", PyStr "str"); ("age", PyStr "int")]);
            ("docstring", PyStr "A person")])].

Definition company_fields : pydict pyval :=
  [("title", PyStr "str"); ("size", PyStr "integer"); ("tags", PyStr "List[str]")].

Definition person_and_company : pydict pyval :=
  [("Person", PyDict [("fields", PyDict [("name", PyStr "str")])]);
   ("Company", PyDict [("fields", PyDict company_fields)])].

Definition works_at : pydict pyval :=
  [("('Person', 'Company')", PyList [PyStr "WORKS_AT"; PyStr "FOUNDED"])].

Definition two_spellings : pydict pyval :=
  [("('A','B')", PyList [PyStr "WORKS_AT"]);
   ("('A', 'B')", PyList [PyStr "MANAGES"])].

Definition bare_key : pydict pyval :=
  [("('A', 'B')", PyList []); ("(A, B)", PyList [PyStr "KNOWS"])].

Definition string_value : pydict pyval :=
  [("('A', 'B')", PyList [PyStr "KNOWS"]); ("('B', 'C')", PyStr "WORKS_AT")].

Definition spaced_key : pydict pyval :=
  [("(' A ', ' B ')", PyList [PyStr "KNOWS"])].

End Sample.

Module MoreSamples.

(** A pydantic that refuses the field names with a leading underscore. *)
Definition refuses_underscore (name : string)
  (field_definitions : pydict (pytype * field_default)) : option exn :=
  if existsb (fun fd => PyStr.startswith (fst fd) "_") field_definitions
  then Some (OtherError "NameError"
               "Fields must not use names with leading underscores")
  else None.

Definition no_fields : pydict pyval :=
  [("Person", PyDict [("fields", PyDict [("name", PyStr "str")])]);
   ("Company", PyDict [("docstring", PyStr "A company")])].

Definition fields_as_list : pydict pyval :=
  [("Person", PyDict [("fields", PyList [PyStr "name"; PyStr "age"])])].

Definition null_field_type : pydict pyval :=
  [("Person",
    PyDict [("fields", PyDict [("name", PyStr "str"); ("age", PyNone)])])].

Definition private_field : pydict pyval :=
  [("Person", PyDict [("fields", PyDict [("_id", PyStr "int")])])].


Definition three_names : pydict pyval :=
  [("('A', 'B')", PyList []); ("('A', 'B', 'C')", PyList [PyStr "KNOWS"])].

Definition works_at_key : pydict pyval :=
  [("('Person', 'Company')", PyList [PyStr "WORKS_AT"])].

End MoreSamples.

(** ** Vocabulary of the statements *)

(** Every character of [s] satisfies [p]. *)
Fixpoint all_chars (p : ascii -> bool) (s : string) : Prop :=
  match s with
  | EmptyString => True
  | String c s' => p c = true /\ all_chars p s'
  end.

(** [s] neither begins nor ends with a character that satisfies [p]. *)
Definition clean_ends (p : ascii -> bool) (s : string) : Prop :=
  (forall c r, s = String c r -> p c = false)
  /\ (forall r c, s = r ++ String c EmptyString -> p c = false).

(** The quote characters that a key part is stripped of. *)
Definition is_quote (c : ascii) : bool := PyStr.mem c ("'" ++ PyStr.dquote).

(** What the comprehension of [key_parts] does to one part:
    [part.strip()], then the strip of single and double quotes. *)
Definition strip_part (part : string) : string :=
  PyStr.strip_chars (PyStr.strip part) ("'" ++ PyStr.dquote).

(** The loop of [convert_edge_mappings], continued from the table [acc]:
    the body is read off the definition. *)
Definition edge_mappings_from (acc : edge_table) (edge_data : pydict pyval)
  : M edge_table :=
  ltac:(let t := eval cbv delta [convert_edge_mappings] in convert_edge_mappings in
        lazymatch t with
        | (fun d => for_items d ?body _) =>
            exact (for_items edge_data body acc)
        end).

(** An entry of a pair mapping that the loop accepts: a key [('content')]
    whose content splits in two parts, and a list for value. *)
Definition well_formed_entry (e : string * pyval) : Prop :=
  exists content part0 part1 l,
    fst e = "('" ++ content ++ "')"
    /\ PyStr.split content "'," = [part0; part1]
    /\ snd e = PyList l.

(** The loop over the fields of one entity, continued from the field
    definitions [acc]. *)
Definition fields_from (float_str : float -> string) (entity_name : string)
  (acc : pydict (pytype * field_default)) (field_items : pydict pyval)
  : M (pydict (pytype * field_default)) :=
  for_items field_items
    (fun field_name field_type_str pydantic_fields =>
       h <- py_hash field_type_str ;;
       match TYPE_MAPPING_get h with
       | None =>
           raise (TypeError
                    (msg_unsupported_type float_str h field_name entity_name))
       | Some ty =>
           ret (dict_set String.eqb field_name (ty, Ellipsis) pydantic_fields)
       end)
    acc.

(** The loop of [create_entity_types_from_dict], continued from the table
    [acc]: the body is read off the definition. *)
Definition entity_types_from
  (pydantic_rejects : string -> pydict (pytype * field_default) -> option exn)
  (float_str : float -> string) (acc : pydict Model)
  (entity_data : pydict pyval) : M (pydict Model) :=
  ltac:(let t := eval cbv beta delta [create_entity_types_from_dict] in
                 (create_entity_types_from_dict pydantic_rejects float_str) in
        lazymatch t with
        | (fun d => for_items d ?body _) =>
            exact (for_items entity_data body acc)
        end).

(** [entity_config.get('docstring', '')] *)
Definition docstring_of (config : pydict pyval) : pyval :=
  match dict_get String.eqb "docstring" config with
  | Some d => d
  | None => PyStr EmptyString
  end.

(** The model that the [try] block of the entity loop stores: what
    [create_model] returns, with the docstring for [__doc__] when it is
    truthy. *)
Definition stored_model (entity_name : string)
  (field_definitions : pydict (pytype * field_default)) (docstring : pyval)
  : Model :=
  {| model_name := entity_name;
     model_fields :=
       map (fun fd => (fst fd, field_info (snd fd))) field_definitions;
     model_doc := if truthy docstring then docstring else PyNone |}.



(** An entry of a pair mapping and the log record of its acceptance. *)
Definition logged_as (e : string * pyval) (r : log_record) : Prop :=
  exists a b,
    key_parts (fst e) = [a; b] /\ r = CreatedEdgeMapping (a, b) (snd e).

(** [s] has an occurrence of [sep]. *)
Definition contains (s sep : string) : Prop :=
  exists x y, s = x ++ sep ++ y.

(** A name that the key format carries unchanged: no white space and no
    quote at either end, no quote-comma inside. *)
Definition plain_name (s : string) : Prop :=
  clean_ends PyStr.isspace s /\ clean_ends is_quote s /\ ~ contains s "',".

(** A field declaration whose type is one of the supported type names. *)
Definition supported_field (fd : string * pyval) : Prop :=
  exists t, snd fd = PyStr t /\ In t (map fst TYPE_MAPPING).

(** An entry of a table of type definitions that the loop accepts: a
    dictionary whose [fields] is a dictionary of supported type names, from
    which field definitions are made that pydantic does not refuse. *)
Definition well_formed_entity
  (pydantic_rejects : string -> pydict (pytype * field_default) -> option exn)
  (float_str : float -> string) (e : string * pyval) : Prop :=
  exists config field_items field_definitions,
    snd e = PyDict config
    /\ dict_get String.eqb "fields" config = Some (PyDict field_items)
    /\ Forall supported_field field_items
    /\ fields_from float_str (fst e) [] field_items []
       = (Return field_definitions, [])
    /\ pydantic_rejects (fst e) field_definitions = None.

(** Decision of [contains] and [clean_ends], to check names with. *)
Fixpoint occurs (sep s : string) : bool :=
  match s with
  | EmptyString => PyStr.startswith s sep
  | String _ s' => PyStr.startswith s sep || occurs sep s'
  end.

Fixpoint last_char (s : string) : option ascii :=
  match s with
  | EmptyString => None
  | String c s' => match last_char s' with None => Some c | last => last end
  end.

Definition clean_endsb (p : ascii -> bool) (s : string) : bool :=
  match s with EmptyString => true | String c _ => negb (p c) end
  && match last_char s with None => true | Some c => negb (p c) end.

Definition plain_nameb (s : string) : bool :=
  clean_endsb PyStr.isspace s && clean_endsb is_quote s && negb (occurs "'," s).

(** * Facts about the string operations *)

Module PyStrFacts.
Import PyStr.

Lemma append_nil_r (s : string) : s ++ EmptyString = s.
Proof. induction s as [|c s IH]; simpl; [reflexivity | now rewrite IH]. Qed.

Lemma append_assoc (a b c : string) : (a ++ b) ++ c = a ++ b ++ c.
Proof. induction a as [|x a IH]; simpl; [reflexivity | now rewrite IH]. Qed.

Lemma length_append (a b : string) :
  String.length (a ++ b) = (String.length a + String.length b)%nat.
Proof. induction a as [|x a IH]; simpl; [reflexivity | now rewrite IH]. Qed.

Lemma startswith_iff (s prefix : string) :
  startswith s prefix = true <-> exists r, s = prefix ++ r.
Proof.
  revert s; induction prefix as [|p prefix IH]; intro s; simpl.
  - split; [intros _; now exists s | reflexivity].
  - destruct s as [|c s].
    + split; [discriminate | intros [r Hr]; discriminate].
    + rewrite andb_true_iff, Ascii.eqb_eq, IH. split.
      * intros [-> [r ->]]. now exists r.
      * intros [r Hr]. injection Hr as -> ->. split; [reflexivity | now exists r].
Qed.

Lemma drop_app (a b : string) : drop (String.length a) (a ++ b) = b.
Proof. induction a as [|x a IH]; simpl; [reflexivity | exact IH]. Qed.

Lemma drop_split (n : nat) (s : string) : exists a, s = a ++ drop n s.
Proof.
  revert s; induction n as [|n IH]; intro s.
  - now exists EmptyString.
  - destruct s as [|c s]; simpl.
    + now exists EmptyString.
    + destruct (IH s) as [a Ha]. exists (String c a). simpl. now rewrite <- Ha.
Qed.

Lemma endswith_iff (s suffix : string) :
  endswith s suffix = true <-> exists r, s = r ++ suffix.
Proof.
  unfold endswith. rewrite andb_true_iff, String.eqb_eq. split.
  - intros [_ H]. destruct (drop_split (String.length s - String.length suffix) s)
      as [a Ha]. exists a. now rewrite <- H.
  - intros [r ->]. rewrite length_append. split.
    + apply Nat.leb_le. lia.
    + replace (String.length r + String.length suffix - String.length suffix)%nat
        with (String.length r) by lia.
      apply drop_app.
Qed.

Lemma substring_prefix (c b : string) :
  substring 0 (String.length c) (c ++ b) = c.
Proof.
  induction c as [|x c IH]; simpl.
  - now destruct b.
  - now rewrite IH.
Qed.

(** [key_str[2:-2]] takes the two characters off each end. *)
Lemma slice_content (a0 a1 b0 b1 : ascii) (content : string) :
  slice (String a0 (String a1 (content ++ String b0 (String b1 EmptyString))))
    2 (-2) = content.
Proof.
  unfold slice. cbn [String.length]. rewrite length_append. cbn [String.length].
  set (n := String.length content).
  set (len := Z.of_nat (S (S (n + 2)))).
  assert (Hlen : len = (Z.of_nat n + 4)%Z) by lia.
  assert (Ha : slice_index len 2 = 2%Z).
  { unfold slice_index. change (2 <? 0)%Z with false. cbv iota. lia. }
  assert (Hb : slice_index len (-2) = (Z.of_nat n + 2)%Z).
  { unfold slice_index. change (-2 <? 0)%Z with true. cbv iota. lia. }
  rewrite Ha, Hb.
  replace (Z.to_nat 2) with 2%nat by reflexivity.
  replace (Z.to_nat (Z.of_nat n + 2 - 2)) with n by lia.
  cbn [substring]. apply substring_prefix.
Qed.

Lemma split_from_not_nil (sep : string) (skip : nat) (s : string) :
  split_from sep skip s <> [].
Proof.
  revert skip; induction s as [|c s IH]; intro skip; simpl; [discriminate|].
  destruct skip as [|k]; [|apply IH].
  destruct (startswith (String c s) sep); [discriminate|].
  specialize (IH 0%nat). destruct (split_from sep 0 s); [contradiction | discriminate].
Qed.

Lemma join_cons (sep p : string) (ps : list string) :
  ps <> [] -> join sep (p :: ps) = p ++ sep ++ join sep ps.
Proof. destruct ps; [contradiction | reflexivity]. Qed.

Lemma join_split_from (sep : string) (skip : nat) (s : string) :
  sep <> EmptyString -> join sep (split_from sep skip s) = drop skip s.
Proof.
  intro Hsep. revert skip; induction s as [|c s IH]; intro skip.
  - now destruct skip.
  - cbn [split_from]. destruct skip as [|k]; [|apply IH].
    destruct (startswith (String c s) sep) eqn:E.
    + rewrite join_cons by apply split_from_not_nil. rewrite IH.
      apply startswith_iff in E. destruct E as [r Hr].
      destruct sep as [|x sep]; [contradiction|].
      cbn in Hr. injection Hr as -> ->.
      replace (String.length (String x sep) - 1)%nat with (String.length sep)
        by (cbn [String.length]; lia).
      now rewrite drop_app.
    + specialize (IH 0%nat). pose proof (split_from_not_nil sep 0 s) as Hn.
      destruct (split_from sep 0 s) as [|p ps]; [contradiction|].
      cbn [cons_head]. cbn [drop] in *. destruct ps as [|q ps].
      * cbn in *. now rewrite IH.
      * cbn [join] in *. cbn. now rewrite IH.
Qed.

(** The parts of a split, joined again by the separator, give the string. *)
Lemma join_split (s sep : string) :
  sep <> EmptyString -> join sep (split s sep) = s.
Proof. intro H. unfold split. now rewrite join_split_from. Qed.

Lemma lstrip_by_spec (p : ascii -> bool) (s : string) :
  exists a, s = a ++ lstrip_by p s /\ all_chars p a
            /\ (forall c r, lstrip_by p s = String c r -> p c = false).
Proof.
  induction s as [|c s IH]; simpl.
  - exists EmptyString. split; [reflexivity | split; [exact I | discriminate]].
  - destruct (p c) eqn:E.
    + destruct IH as [a [H1 [H2 H3]]]. exists (String c a). simpl.
      split; [now rewrite <- H1 | split; [now split | exact H3]].
    + exists EmptyString. split; [reflexivity | split; [exact I|]].
      intros c' r H. injection H as Hc _. now subst.
Qed.

Lemma rstrip_by_spec (p : ascii -> bool) (s : string) :
  exists b, s = rstrip_by p s ++ b /\ all_chars p b
            /\ (forall r c, rstrip_by p s = r ++ String c EmptyString
                             -> p c = false).
Proof.
  induction s as [|c s IH].
  - exists EmptyString. split; [reflexivity | split; [exact I|]].
    intros [|x r] c H; discriminate.
  - destruct IH as [b [H1 [H2 H3]]]. cbn [rstrip_by].
    destruct (rstrip_by p s) as [|d R] eqn:ER.
    + cbn in H1. subst b. destruct (p c) eqn:E.
      * exists (String c s). split; [reflexivity | split; [now split|]].
        intros [|x r] c' H; discriminate.
      * exists s. split; [reflexivity | split; [assumption|]].
        intros [|x r] c' H; cbn in H.
        -- injection H as Hc. now subst.
        -- injection H as _ H. destruct r; discriminate.
    + exists b. split; [cbn; cbn in H1; now rewrite <- H1 | split; [assumption|]].
      intros [|x r] c' H; cbn in H.
      * discriminate.
      * injection H as _ H. now apply (H3 r).
Qed.

(** A strip removes a run of [p]-characters at each end and leaves a string
    with no [p]-character at either end. *)
Lemma strip_by_spec (p : ascii -> bool) (s : string) :
  exists a b, s = a ++ strip_by p s ++ b /\ all_chars p a /\ all_chars p b
              /\ clean_ends p (strip_by p s).
Proof.
  unfold strip_by.
  destruct (lstrip_by_spec p s) as [a [H1 [H2 H3]]].
  destruct (rstrip_by_spec p (lstrip_by p s)) as [b [H4 [H5 H6]]].
  exists a, b. split; [now rewrite <- H4 | split; [assumption | split; [assumption|]]].
  split; [|exact H6].
  intros c r E. rewrite E in H4. cbn in H4. now apply (H3 c (r ++ b)).
Qed.

(** A key part is stripped of white space at its ends, then of quotes. *)
Lemma strip_part_spec (part : string) :
  exists ws1 q1 q2 ws2,
    part = ws1 ++ (q1 ++ strip_part part ++ q2) ++ ws2
    /\ all_chars isspace ws1 /\ all_chars isspace ws2
    /\ all_chars is_quote q1 /\ all_chars is_quote q2
    /\ clean_ends isspace (q1 ++ strip_part part ++ q2)
    /\ clean_ends is_quote (strip_part part).
Proof.
  unfold strip_part, strip_chars, strip.
  destruct (strip_by_spec isspace part) as [ws1 [ws2 [H1 [H2 [H3 H4]]]]].
  destruct (strip_by_spec is_quote (strip_by isspace part))
    as [q1 [q2 [H5 [H6 [H7 H8]]]]].
  exists ws1, q1, q2, ws2.
  change (fun c => mem c ("'" ++ dquote)) with is_quote.
  rewrite <- H5. auto 10.
Qed.

End PyStrFacts.

(** * Facts about dictionaries *)

Section DictFacts.
Variables (K V : Type) (eqb : K -> K -> bool).
Hypothesis eqb_eq : forall a b, eqb a b = true <-> a = b.

Lemma dict_eqb_refl (k : K) : eqb k k = true.
Proof. now apply eqb_eq. Qed.

Lemma dict_eqb_neq (a b : K) : a <> b -> eqb a b = false.
Proof. intro H. apply not_true_is_false. intro E. now apply H, eqb_eq. Qed.

Lemma dict_get_set_same (k : K) (v : V) (d : list (K * V)) :
  dict_get eqb k (dict_set eqb k v d) = Some v.
Proof.
  induction d as [|[k' v'] d IH]; cbn.
  - now rewrite dict_eqb_refl.
  - destruct (eqb k' k) eqn:E; cbn; now rewrite E.
Qed.

Lemma dict_get_set_other (k k0 : K) (v : V) (d : list (K * V)) :
  k <> k0 -> dict_get eqb k0 (dict_set eqb k v d) = dict_get eqb k0 d.
Proof.
  intro Hne. induction d as [|[k' v'] d IH]; cbn.
  - now rewrite dict_eqb_neq.
  - destruct (eqb k' k) eqn:E; cbn.
    + apply eqb_eq in E. subst k'. now rewrite dict_eqb_neq.
    + now rewrite IH.
Qed.

Lemma dict_set_keys (k : K) (v : V) (d : list (K * V)) :
  map fst (dict_set eqb k v d)
  = if existsb (fun e => eqb (fst e) k) d then map fst d
    else (map fst d ++ [k])%list.
Proof.
  induction d as [|[k' v'] d IH]; cbn; [reflexivity|].
  destruct (eqb k' k) eqn:E; cbn; [reflexivity|].
  rewrite IH. now destruct (existsb (fun e => eqb (fst e) k) d).
Qed.

Lemma existsb_key_false (k : K) (d : list (K * V)) :
  existsb (fun e => eqb (fst e) k) d = false -> ~ In k (map fst d).
Proof.
  induction d as [|[k' v'] d IH]; cbn; [tauto|].
  rewrite orb_false_iff. intros [H1 H2] [H|H].
  - subst k'. now rewrite dict_eqb_refl in H1.
  - now apply IH.
Qed.

(** An assignment keeps the keys of a dictionary distinct. *)
Lemma dict_set_NoDup (k : K) (v : V) (d : list (K * V)) :
  NoDup (map fst d) -> NoDup (map fst (dict_set eqb k v d)).
Proof.
  intro H. rewrite dict_set_keys.
  destruct (existsb (fun e => eqb (fst e) k) d) eqn:E; [assumption|].
  apply NoDup_app; repeat split; try assumption.
  - repeat constructor. intros [].
  - intros x Hx [Hk|[]]. subst x. now apply (existsb_key_false _ _ E).
Qed.

Lemma filter_key_absent (k : K) (d : list (K * V)) :
  ~ In k (map fst d) -> filter (fun e => eqb (fst e) k) d = [].
Proof.
  induction d as [|[k' v'] d IH]; cbn; [reflexivity|].
  intro H. rewrite dict_eqb_neq by tauto. apply IH. tauto.
Qed.

(** In a dictionary with distinct keys, the entry under a key is the one
    [dict_get] finds, and the only one. *)
Lemma filter_key_unique (k : K) (v : V) (d : list (K * V)) :
  NoDup (map fst d) -> dict_get eqb k d = Some v ->
  filter (fun e => eqb (fst e) k) d = [(k, v)].
Proof.
  induction d as [|[k' v'] d IH]; cbn; [discriminate|].
  intros Hnd Hget. inversion Hnd as [|? ? Hnotin Hnd']; subst.
  destruct (eqb k' k) eqn:E.
  - apply eqb_eq in E. subst k'. injection Hget as ->.
    now rewrite filter_key_absent.
  - now apply IH.
Qed.

Lemma dict_get_absent (k : K) (d : list (K * V)) :
  ~ In k (map fst d) -> dict_get eqb k d = None.
Proof.
  induction d as [|[k' v'] d IH]; cbn; [reflexivity|].
  intro H. rewrite dict_eqb_neq by tauto. apply IH. tauto.
Qed.

Lemma dict_get_present (k : K) (d : list (K * V)) :
  In k (map fst d) -> exists v, dict_get eqb k d = Some v.
Proof.
  induction d as [|[k' v'] d IH]; cbn; [tauto|].
  intro H. destruct (eqb k' k) eqn:E; [now exists v'|].
  apply IH. destruct H as [H|H]; [|assumption].
  subst k'. now rewrite dict_eqb_refl in E.
Qed.

End DictFacts.

Lemma pair_eqb_eq (p q : string * string) : pair_eqb p q = true <-> p = q.
Proof.
  destruct p as [a b], q as [c d]. unfold pair_eqb. cbn.
  rewrite andb_true_iff, !String.eqb_eq. split.
  - now intros [-> ->].
  - intro H. now injection H.
Qed.

(** * Properties of the module *)

Section Properties.

Variable json_loads : string -> json_result.
Variable pydantic_rejects :
  string -> pydict (pytype * field_default) -> option exn.
Variable float_str : float -> string.

(** A loop over [a ++ b] is the loop over [a] followed, unless that one
    raised, by the loop over [b]. *)
Lemma for_items_app {K V S : Type} (a b : list (K * V))
  (body : K -> V -> S -> M S) (acc : S) (log : list log_record) :
  for_items (a ++ b)%list body acc log =
  match for_items a body acc log with
  | (Return acc', log') => for_items b body acc' log'
  | (Raise e, log') => (Raise e, log')
  end.
Proof.
  revert acc log; induction a as [|[k v] a IH]; intros acc log.
  - reflexivity.
  - cbn [for_items app]. unfold bind.
    destruct (body k v acc log) as [[acc'|e] log']; [apply IH | reflexivity].
Qed.

(** Once the text is decoded to a dictionary, the JSON entry point for
    entity types runs the loop of the dictionary entry point. *)
Lemma parse_json_to_entity_types_decoded (json_str : string)
  (entity_data : pydict pyval) (log : list log_record) :
  json_loads json_str = Decoded (PyDict entity_data) ->
  parse_json_to_entity_types json_loads pydantic_rejects float_str json_str log
  = create_entity_types_from_dict pydantic_rejects float_str entity_data log.
Proof.
  intro H. unfold parse_json_to_entity_types, create_entity_types_from_dict.
  rewrite H. reflexivity.
Qed.

Lemma parse_json_to_edge_mappings_decoded (json_str : string)
  (edge_data : pydict pyval) (log : list log_record) :
  json_loads json_str = Decoded (PyDict edge_data) ->
  parse_json_to_edge_mappings json_loads json_str log
  = convert_edge_mappings edge_data log.
Proof.
  intro H. unfold parse_json_to_edge_mappings, convert_edge_mappings.
  rewrite H. reflexivity.
Qed.

(** What [parse_json_to_edge_types] makes of the outcome of
    [parse_json_to_entity_types]: a table is passed on, any exception
    becomes a [ValueError]. *)
Lemma parse_json_to_edge_types_outcome (json_str : string)
  (log : list log_record) :
  parse_json_to_edge_types json_loads pydantic_rejects float_str json_str log
  = match parse_json_to_entity_types json_loads pydantic_rejects float_str
            json_str log with
    | (Return types, log') => (Return types, log')
    | (Raise e, log') => (Raise (ValueError (msg_edge_types_failed e)), log')
    end.
Proof. reflexivity. Qed.

(** A text that [json.loads] refuses makes the three JSON entry points
    raise [ValueError] around the text of the decoding error. *)
Lemma undecodable_text_raises_ValueError (json_str e : string)
  (log : list log_record) :
  json_loads json_str = JSONDecodeError e ->
  parse_json_to_entity_types json_loads pydantic_rejects float_str json_str log
  = (Raise (ValueError ("Invalid JSON format for entity types: " ++ e)), log)
  /\ parse_json_to_edge_types json_loads pydantic_rejects float_str
       json_str log
     = (Raise (ValueError
                 ("Failed to parse edge types: "
                  ++ "Invalid JSON format for entity types: " ++ e)), log)
  /\ parse_json_to_edge_mappings json_loads json_str log
     = (Raise (ValueError ("Invalid JSON format for edge mappings: " ++ e)),
        log).
Proof.
  intro H.
  unfold parse_json_to_edge_types, parse_json_to_entity_types,
    parse_json_to_edge_mappings, try_except, bind.
  rewrite H. repeat split.
Qed.

(** C2: for a mapping [d] that [json.loads] gives back from its
    serialization, each JSON entry point applied to the serialization ends as
    the dictionary entry point applied to [d]: same table or same exception,
    and same log. *)
Theorem json_route_equals_dict_route (json_dumps : pyval -> string)
  (d : pydict pyval) (log : list log_record) :
  json_loads (json_dumps (PyDict d)) = Decoded (PyDict d) ->
  parse_json_to_edge_mappings json_loads (json_dumps (PyDict d)) log
  = convert_edge_mappings d log
  /\ parse_json_to_entity_types json_loads pydantic_rejects float_str
       (json_dumps (PyDict d)) log
     = create_entity_types_from_dict pydantic_rejects float_str d log.
Proof.
  intro H. split.
  - now apply parse_json_to_edge_mappings_decoded.
  - now apply parse_json_to_entity_types_decoded.
Qed.

(** C10: on the empty dictionary, and on the JSON text of the empty object,
    the five operations return the empty table and log nothing. *)
Theorem empty_input_gives_empty_table (log : list log_record) :
  json_loads "{}" = Decoded (PyDict []) ->
  create_entity_types_from_dict pydantic_rejects float_str [] log
  = (Return [], log)
  /\ convert_edge_mappings [] log = (Return [], log)
  /\ parse_json_to_entity_types json_loads pydantic_rejects float_str "{}" log
     = (Return [], log)
  /\ parse_json_to_edge_types json_loads pydantic_rejects float_str "{}" log
     = (Return [], log)
  /\ parse_json_to_edge_mappings json_loads "{}" log = (Return [], log).
Proof.
  intro H.
  assert (He : parse_json_to_entity_types json_loads pydantic_rejects
                 float_str "{}" log = (Return [], log))
    by now rewrite (parse_json_to_entity_types_decoded log H).
  repeat split; try reflexivity.
  - exact He.
  - now rewrite parse_json_to_edge_types_outcome, He.
  - now rewrite (parse_json_to_edge_mappings_decoded log H).
Qed.

(** A loop whose body returns, without logging, on every item that
    satisfies [P] returns on a list of such items. *)
Lemma for_items_returns {K V S : Type} (P : K * V -> Prop)
  (body : K -> V -> S -> M S) (items : list (K * V)) :
  (forall k v acc log, P (k, v) ->
     exists acc', body k v acc log = (Return acc', log)) ->
  Forall P items ->
  forall acc log, exists acc', for_items items body acc log = (Return acc', log).
Proof.
  intros Hbody. induction 1 as [|[k v] items Hkv _ IH]; intros acc log.
  - now exists acc.
  - cbn [for_items]. unfold bind.
    destruct (Hbody k v acc log Hkv) as [acc' ->]. apply IH.
Qed.

(** A loop over a list with an item on which the body raises, whatever
    the accumulator and the log, raises: there or before. *)
Lemma for_items_raises {K V S : Type} (body : K -> V -> S -> M S)
  (items : list (K * V)) (k : K) (v : V) :
  In (k, v) items ->
  (forall acc log, exists e log', body k v acc log = (Raise e, log')) ->
  forall acc log, exists e log', for_items items body acc log = (Raise e, log').
Proof.
  intros Hin Hbody. induction items as [|[k0 v0] items IH]; intros acc log.
  - destruct Hin.
  - cbn [for_items]. unfold bind.
    destruct (body k0 v0 acc log) as [[acc'|e] log'] eqn:E; [|eauto].
    destruct Hin as [Heq|Hin]; [|now apply IH].
    injection Heq as -> ->. destruct (Hbody acc log) as [e [l He]]. congruence.
Qed.

(** ** The record types *)

Lemma TYPE_MAPPING_keys :
  map fst TYPE_MAPPING
  = ["str"; "int"; "float"; "bool"; "list"; "dict"; "List[str]"; "List[int]";
     "List[float]"; "Dict[str, Any]"; "Dict[str, str]"; "Dict[str, int]"].
Proof. reflexivity. Qed.

(** C5: the definition with the fields [name: str] and [age: int] and the
    docstring [A person], under any name that pydantic accepts, gives a table
    with one model: two fields in this order, both required, of the types
    [str] and [int], and the docstring as [__doc__]. *)
Theorem person_definition_builds_two_required_fields
  (entity_name : string) (config : pydict pyval) (json_str : string)
  (log : list log_record) :
  dict_get String.eqb "fields" config
  = Some (PyDict [("name", PyStr "str"); ("age", PyStr "int")]) ->
  dict_get String.eqb "docstring" config = Some (PyStr "A person") ->
  pydantic_rejects entity_name
    [("name", (Tstr, Ellipsis)); ("age", (Tint, Ellipsis))] = None ->
  json_loads json_str = Decoded (PyDict [(entity_name, PyDict config)]) ->
  create_entity_types_from_dict pydantic_rejects float_str
    [(entity_name, PyDict config)] log
  = (Return
       [(entity_name,
         {| model_name := entity_name;
            model_fields :=
              [("name", {| annotation := Tstr; is_required := true |});
               ("age", {| annotation := Tint; is_required := true |})];
            model_doc := PyStr "A person" |})],
     (log ++ [CreatedEntityType entity_name])%list)
  /\ parse_json_to_entity_types json_loads pydantic_rejects float_str
       json_str log
     = create_entity_types_from_dict pydantic_rejects float_str
         [(entity_name, PyDict config)] log.
Proof.
  intros Hfields Hdoc Hpydantic Hjson.
  split; [|now apply parse_json_to_entity_types_decoded].
  unfold create_entity_types_from_dict. cbn [for_items].
  rewrite Hfields, Hdoc. unfold bind, try_except, create_model. cbn.
  rewrite Hpydantic. reflexivity.
Qed.

(** The first field of an unsupported type: the entries before it were
    built, the fields before it have supported types. *)
Lemma first_unknown_field_type
  (pre post : pydict pyval) (entity_name : string) (config : pydict pyval)
  (fields_before fields_after : pydict pyval) (field_name t : string)
  (log log' : list log_record) (types : pydict Model) :
  ~ In t (map fst TYPE_MAPPING) ->
  dict_get String.eqb "fields" config
  = Some (PyDict (fields_before ++ (field_name, PyStr t) :: fields_after)%list) ->
  Forall (fun fd => exists s, snd fd = PyStr s /\ In s (map fst TYPE_MAPPING))
    fields_before ->
  create_entity_types_from_dict pydantic_rejects float_str pre log
  = (Return types, log') ->
  create_entity_types_from_dict pydantic_rejects float_str
    (pre ++ (entity_name, PyDict config) :: post)%list log
  = (Raise (TypeError
              (msg_unsupported_type float_str (HStr t) field_name entity_name)),
     log').
Proof.
  intros Ht Hfields Hbefore Hpre.
  unfold create_entity_types_from_dict in *.
  rewrite for_items_app, Hpre. cbn [for_items]. unfold bind at 1.
  rewrite Hfields. cbn [py_items]. unfold bind at 1. unfold ret at 1.
  unfold bind at 1. rewrite for_items_app.
  match goal with
  | Hb : Forall ?P _ |- context [for_items fields_before ?body []] =>
      destruct (@for_items_returns _ _ _ P body fields_before) with
        (acc := @nil (string * (pytype * field_default))) (log := log')
        as [acc' Hacc]; [|exact Hb|]
  end.
  - intros k v acc l [s [Hv Hs]]. cbn [snd] in Hv. subst v.
    cbn [py_hash]. unfold bind, ret. cbn [TYPE_MAPPING_get].
    destruct (dict_get_present String.eqb String.eqb_eq _ _ Hs) as [ty ->].
    eauto.
  - rewrite Hacc. cbn [for_items py_hash]. unfold bind, ret, raise.
    cbn [TYPE_MAPPING_get].
    rewrite (dict_get_absent String.eqb String.eqb_eq _ _ Ht).
    reflexivity.
Qed.

(** A definition with a field of an unsupported type never gives a table. *)
Lemma unknown_field_type_never_builds
  (entity_data : pydict pyval) (entity_name : string) (config : pydict pyval)
  (fields : pydict pyval) (field_name t : string) (log : list log_record) :
  ~ In t (map fst TYPE_MAPPING) ->
  In (entity_name, PyDict config) entity_data ->
  dict_get String.eqb "fields" config = Some (PyDict fields) ->
  In (field_name, PyStr t) fields ->
  exists e log',
    create_entity_types_from_dict pydantic_rejects float_str entity_data log
    = (Raise e, log').
Proof.
  intros Ht Hentity Hfields Hfield.
  unfold create_entity_types_from_dict.
  apply for_items_raises with (k := entity_name) (v := PyDict config);
    [assumption|].
  intros acc l. rewrite Hfields. cbn [py_items]. unfold bind at 1.
  unfold ret at 1. unfold bind at 1.
  match goal with
  | |- context [for_items fields ?body ?acc0 l] =>
      destruct (@for_items_raises _ _ _ body fields field_name (PyStr t) Hfield)
        with (acc := acc0) (log := l) as [e [l' He]]
  end.
  - intros acc0 l0. cbn [py_hash]. unfold bind, ret, raise.
    cbn [TYPE_MAPPING_get].
    rewrite (dict_get_absent String.eqb String.eqb_eq _ _ Ht). eauto.
  - rewrite He. eauto.
Qed.

(** C3: a definition with a field whose type name is a string outside
    [TYPE_MAPPING] is refused by both builders of entity types. When that
    field is the first fault (the entries before it were built, the fields
    before it have supported types) the exception is [TypeError], and its
    message names the type name, the field and the entity and lists the
    twelve supported type names. *)
Theorem unknown_field_type_raises_type_error
  (entity_data : pydict pyval) (entity_name : string) (config : pydict pyval)
  (fields : pydict pyval) (field_name t : string)
  (json_str : string) (log : list log_record) :
  ~ In t (map fst TYPE_MAPPING) ->
  In (entity_name, PyDict config) entity_data ->
  dict_get String.eqb "fields" config = Some (PyDict fields) ->
  In (field_name, PyStr t) fields ->
  json_loads json_str = Decoded (PyDict entity_data) ->
  parse_json_to_entity_types json_loads pydantic_rejects float_str
    json_str log
  = create_entity_types_from_dict pydantic_rejects float_str entity_data log
  /\ (exists e log',
        create_entity_types_from_dict pydantic_rejects float_str
          entity_data log
        = (Raise e, log'))
  /\ forall pre post fields_before fields_after types log',
       entity_data = (pre ++ (entity_name, PyDict config) :: post)%list ->
       fields
       = (fields_before ++ (field_name, PyStr t) :: fields_after)%list ->
       Forall
         (fun fd => exists s, snd fd = PyStr s /\ In s (map fst TYPE_MAPPING))
         fields_before ->
       create_entity_types_from_dict pydantic_rejects float_str pre log
       = (Return types, log') ->
       create_entity_types_from_dict pydantic_rejects float_str
         entity_data log
       = (Raise (TypeError
                   ("Unsupported field type '" ++ t
                    ++ "' for field '" ++ field_name
                    ++ "' in entity '" ++ entity_name
                    ++ "'. Supported types: ['str', 'int', 'float', 'bool', "
                    ++ "'list', 'dict', 'List[str]', 'List[int]', "
                    ++ "'List[float]', 'Dict[str, Any]', 'Dict[str, str]', "
                    ++ "'Dict[str, int]']")),
          log').
Proof.
  intros Ht Hentity Hfields Hfield Hjson.
  split; [now apply parse_json_to_entity_types_decoded | split].
  - now apply unknown_field_type_never_builds
      with entity_name config fields field_name t.
  - intros pre post fields_before fields_after types log' -> -> Hbefore Hpre.
    erewrite first_unknown_field_type; [reflexivity | eassumption ..].
Qed.

(** C1 (the code departs from its docstring): for a definition whose only
    field has a type name outside [TYPE_MAPPING], entity-type building
    raises [TypeError], and edge-type building on the same text raises
    [ValueError] around the same message; the docstring of
    [parse_json_to_edge_types] announces [TypeError] for this fault. *)
Theorem edge_types_raise_ValueError_for_unknown_type
  (entity_name field_name t json_str : string) (log : list log_record) :
  ~ In t (map fst TYPE_MAPPING) ->
  json_loads json_str
  = Decoded (PyDict [(entity_name,
                      PyDict [("fields", PyDict [(field_name, PyStr t)])])]) ->
  parse_json_to_entity_types json_loads pydantic_rejects float_str
    json_str log
  = (Raise (TypeError
              (msg_unsupported_type float_str (HStr t) field_name entity_name)),
     log)
  /\ parse_json_to_edge_types json_loads pydantic_rejects float_str
       json_str log
     = (Raise (ValueError
                 ("Failed to parse edge types: "
                  ++ msg_unsupported_type float_str (HStr t) field_name
                       entity_name)),
        log).
Proof.
  intros Ht Hjson.
  assert (He : parse_json_to_entity_types json_loads pydantic_rejects
                 float_str json_str log
               = (Raise (TypeError
                           (msg_unsupported_type float_str (HStr t) field_name
                              entity_name)), log)).
  { rewrite (parse_json_to_entity_types_decoded log Hjson).
    change [(entity_name, PyDict [("fields", PyDict [(field_name, PyStr t)])])]
      with ([] ++ (entity_name,
                   PyDict [("fields", PyDict [(field_name, PyStr t)])])
               :: [])%list.
    eapply first_unknown_field_type with (fields_before := []);
      [assumption | reflexivity | constructor | reflexivity]. }
  split; [assumption|].
  now rewrite parse_json_to_edge_types_outcome, He.
Qed.

(** ** The table of edge mappings *)

Lemma convert_edge_mappings_from_nil (edge_data : pydict pyval) :
  convert_edge_mappings edge_data = edge_mappings_from [] edge_data.
Proof. reflexivity. Qed.

(** One turn of the loop of [convert_edge_mappings]. *)
Lemma edge_mappings_from_cons (acc : edge_table) (key_str : string)
  (edge_list : pyval) (rest : pydict pyval) (log : list log_record) :
  edge_mappings_from acc ((key_str, edge_list) :: rest) log =
  if negb (PyStr.startswith key_str "('") || negb (PyStr.endswith key_str "')")
  then (Raise (ValueError (msg_key_format key_str)), log)
  else
    match key_parts key_str with
    | [part0; part1] =>
        if is_list edge_list
        then edge_mappings_from
               (dict_set pair_eqb (part0, part1) edge_list acc) rest
               (log ++ [CreatedEdgeMapping (part0, part1) edge_list])%list
        else (Raise (ValueError
                       (msg_mapping_failed key_str
                          (ValueError (msg_not_a_list key_str edge_list)))),
              log)
    | _ => (Raise (ValueError
                     (msg_mapping_failed key_str
                        (ValueError (msg_key_arity key_str)))),
            log)
    end.
Proof.
  unfold edge_mappings_from. cbn [for_items]. unfold bind at 1.
  destruct (negb (PyStr.startswith key_str "('")
            || negb (PyStr.endswith key_str "')")); [reflexivity|].
  unfold try_except.
  destruct (key_parts key_str) as [|part0 [|part1 [|part2 parts]]];
    try reflexivity.
  destruct (is_list edge_list); reflexivity.
Qed.

Lemma edge_mappings_from_app (acc : edge_table) (a b : pydict pyval)
  (log : list log_record) :
  edge_mappings_from acc (a ++ b)%list log =
  match edge_mappings_from acc a log with
  | (Return acc', log') => edge_mappings_from acc' b log'
  | (Raise e, log') => (Raise e, log')
  end.
Proof. apply for_items_app. Qed.

(** A key of the form [('content')] passes the test of line 244, and its
    parts are the stripped parts of the split of [content]. *)
Lemma well_formed_key (content : string) :
  PyStr.startswith ("('" ++ content ++ "')") "('" = true
  /\ PyStr.endswith ("('" ++ content ++ "')") "')" = true
  /\ key_parts ("('" ++ content ++ "')")
     = map strip_part (PyStr.split content "',").
Proof.
  split; [|split].
  - apply PyStrFacts.startswith_iff. now exists (content ++ "')").
  - apply PyStrFacts.endswith_iff. exists ("('" ++ content).
    now rewrite PyStrFacts.append_assoc.
  - unfold key_parts. cbn [append].
    now rewrite PyStrFacts.slice_content.
Qed.

(** A key that begins with [('] and ends with [')] is [(')], in which the
    two overlap, or has a content between them. *)
Lemma key_shape (key_str : string) :
  (exists r, key_str = "('" ++ r) -> (exists r, key_str = r ++ "')") ->
  key_str = "(')" \/ exists content, key_str = "('" ++ content ++ "')".
Proof.
  intros [r Hr] [r' Hr']. subst key_str.
  destruct r' as [|a [|b r']]; cbn in Hr'.
  - discriminate.
  - injection Hr' as <- ->. now left.
  - injection Hr' as <- <- ->. right. now exists r'.
Qed.

(** The loop of [convert_edge_mappings] raises nothing but [ValueError]. *)
Lemma edge_mappings_from_raises_ValueError (items : pydict pyval) :
  forall (acc : edge_table) (log log' : list log_record) (e : exn),
    edge_mappings_from acc items log = (Raise e, log') ->
    exists msg, e = ValueError msg.
Proof.
  induction items as [|[k v] items IH]; intros acc log log' e Hrun.
  - discriminate.
  - rewrite edge_mappings_from_cons in Hrun.
    destruct (negb (PyStr.startswith k "('") || negb (PyStr.endswith k "')"));
      [injection Hrun as <- _; eauto|].
    destruct (key_parts k) as [|part0 [|part1 [|part2 parts]]];
      try (injection Hrun as <- _; eauto; fail).
    destruct (is_list v); [now apply IH in Hrun | injection Hrun as <- _; eauto].
Qed.

(** A mapping with an entry that one turn of the loop refuses is refused. *)
Lemma edge_mappings_from_refused (items : pydict pyval) (key_str : string)
  (edge_list : pyval) (acc : edge_table) (log : list log_record) :
  In (key_str, edge_list) items ->
  negb (PyStr.startswith key_str "('") || negb (PyStr.endswith key_str "')")
  = true \/ is_list edge_list = false ->
  exists msg log',
    edge_mappings_from acc items log = (Raise (ValueError msg), log').
Proof.
  intros Hin Hbad.
  assert (H : exists e log', edge_mappings_from acc items log = (Raise e, log')).
  { unfold edge_mappings_from.
    apply for_items_raises with (k := key_str) (v := edge_list); [assumption|].
    intros acc0 l. cbv beta.
    destruct (negb (PyStr.startswith key_str "('")
              || negb (PyStr.endswith key_str "')")) eqn:Ec.
    - unfold raise. eauto.
    - destruct Hbad as [Hbad|Hbad]; [discriminate|].
      unfold try_except.
      destruct (key_parts key_str) as [|part0 [|part1 [|part2 parts]]];
        try (unfold raise; eauto; fail).
      rewrite Hbad. cbn [negb]. unfold raise. eauto. }
  destruct H as [e [log' He]].
  destruct (edge_mappings_from_raises_ValueError _ _ _ He) as [msg ->]. eauto.
Qed.

Lemma not_both_ends (key_str : string) :
  ~ (exists r, key_str = "('" ++ r) \/ ~ (exists r, key_str = r ++ "')") ->
  negb (PyStr.startswith key_str "('") || negb (PyStr.endswith key_str "')")
  = true.
Proof.
  intro Hkey. rewrite <- negb_andb, negb_true_iff, andb_false_iff.
  destruct Hkey as [H|H]; [left|right]; apply not_true_is_false; intro E;
    apply H; [now apply PyStrFacts.startswith_iff
             | now apply PyStrFacts.endswith_iff].
Qed.

(** C7: a mapping with a key that does not begin with [('] or does not end
    with [')] is refused by both builders with [ValueError]; when that key is
    the first fault, the message quotes the key and the expected pattern. *)
Theorem malformed_key_raises_key_format_error
  (edge_data : pydict pyval) (key_str : string) (edge_list : pyval)
  (json_str : string) (log : list log_record) :
  In (key_str, edge_list) edge_data ->
  ~ (exists r, key_str = "('" ++ r) \/ ~ (exists r, key_str = r ++ "')") ->
  json_loads json_str = Decoded (PyDict edge_data) ->
  parse_json_to_edge_mappings json_loads json_str log
  = convert_edge_mappings edge_data log
  /\ (exists msg log',
        convert_edge_mappings edge_data log = (Raise (ValueError msg), log'))
  /\ forall pre post table log',
       edge_data = (pre ++ (key_str, edge_list) :: post)%list ->
       convert_edge_mappings pre log = (Return table, log') ->
       convert_edge_mappings edge_data log
       = (Raise (ValueError
                   ("Invalid edge mapping key format: '" ++ key_str
                    ++ "'. Expected format: " ++ PyStr.dquote
                    ++ "('Source', 'Target')" ++ PyStr.dquote)),
          log').
Proof.
  intros Hin Hkey Hjson. apply not_both_ends in Hkey.
  split; [now apply parse_json_to_edge_mappings_decoded | split].
  - rewrite convert_edge_mappings_from_nil.
    apply edge_mappings_from_refused with key_str edge_list; auto.
  - intros pre post table log' -> Hpre.
    rewrite convert_edge_mappings_from_nil in *.
    rewrite edge_mappings_from_app, Hpre, edge_mappings_from_cons, Hkey.
    reflexivity.
Qed.

(** The loop accepts a mapping made of well-formed entries. *)
Lemma edge_mappings_from_well_formed (items : pydict pyval) :
  Forall well_formed_entry items ->
  forall (acc : edge_table) (log : list log_record),
    exists table log',
      edge_mappings_from acc items log = (Return table, log').
Proof.
  induction 1 as [|[k v] items [content [p0 [p1 [l [Hk [Hs Hv]]]]]] _ IH];
    intros acc log.
  - now exists acc, log.
  - cbn [fst snd] in Hk, Hv. subst k v. rewrite edge_mappings_from_cons.
    destruct (well_formed_key content) as [-> [-> ->]]. rewrite Hs.
    cbn [negb orb map is_list]. apply IH.
Qed.

(** What an accepted mapping leaves in the table: distinct pairs, and under
    a pair that no further key decodes to, the value it had. *)
Lemma edge_mappings_from_invariant (items : pydict pyval) :
  forall (acc table : edge_table) (log log' : list log_record),
    edge_mappings_from acc items log = (Return table, log') ->
    NoDup (map fst acc) ->
    NoDup (map fst table)
    /\ forall pair v,
         dict_get pair_eqb pair acc = Some v ->
         (forall k' v', In (k', v') items
                        -> key_parts k' <> [fst pair; snd pair]) ->
         dict_get pair_eqb pair table = Some v.
Proof.
  induction items as [|[k v] items IH]; intros acc table log log' Hrun Hnd.
  - cbn in Hrun. injection Hrun as <- <-. auto.
  - rewrite edge_mappings_from_cons in Hrun.
    destruct (negb (PyStr.startswith k "('") || negb (PyStr.endswith k "')"));
      [discriminate|].
    destruct (key_parts k) as [|part0 [|part1 [|part2 parts]]] eqn:Ek;
      try discriminate.
    destruct (is_list v); [|discriminate].
    apply IH in Hrun;
      [|apply dict_set_NoDup; solve [exact pair_eqb_eq | assumption]].
    destruct Hrun as [Hnd' Hget]. split; [assumption|].
    intros pair v0 Hacc Hlater. apply Hget.
    + rewrite dict_get_set_other; [assumption | exact pair_eqb_eq|].
      intro E. apply (Hlater k v); [now left|]. now rewrite Ek, <- E.
    + intros k' v' Hin. apply (Hlater k' v'). now right.
Qed.

(** C8: a mapping with a value that is not a list is refused by both
    builders with [ValueError]; when that entry is the first one at fault and
    its key is well formed, the message names the key and the type
    received. *)
Theorem non_list_value_raises_value_shape_error
  (edge_data : pydict pyval) (key_str : string) (edge_list : pyval)
  (json_str : string) (log : list log_record) :
  In (key_str, edge_list) edge_data ->
  (forall l, edge_list <> PyList l) ->
  json_loads json_str = Decoded (PyDict edge_data) ->
  parse_json_to_edge_mappings json_loads json_str log
  = convert_edge_mappings edge_data log
  /\ (exists msg log',
        convert_edge_mappings edge_data log = (Raise (ValueError msg), log'))
  /\ forall pre post content part0 part1 table log',
       edge_data = (pre ++ (key_str, edge_list) :: post)%list ->
       convert_edge_mappings pre log = (Return table, log') ->
       key_str = "('" ++ content ++ "')" ->
       PyStr.split content "'," = [part0; part1] ->
       convert_edge_mappings edge_data log
       = (Raise (ValueError
                   ("Failed to parse edge mapping key '" ++ key_str
                    ++ "': Edge list for key '" ++ key_str
                    ++ "' must be a list, got: <class '"
                    ++ type_name edge_list ++ "'>")),
          log').
Proof.
  intros Hin Hnot Hjson.
  assert (Hv : is_list edge_list = false)
    by (destruct edge_list; try reflexivity; now destruct (Hnot l)).
  split; [now apply parse_json_to_edge_mappings_decoded | split].
  - rewrite convert_edge_mappings_from_nil.
    apply edge_mappings_from_refused with key_str edge_list; auto.
  - intros pre post content part0 part1 table log' -> Hpre -> Hsplit.
    rewrite convert_edge_mappings_from_nil in *.
    rewrite edge_mappings_from_app, Hpre, edge_mappings_from_cons.
    destruct (well_formed_key content) as [-> [-> ->]].
    rewrite Hsplit, Hv. reflexivity.
Qed.

(** C6: the key [('Person', 'Company')] gives the parts [Person] and
    [Company]. In general a key that begins with [('] and ends with [')]
    loses these two characters at each end; what is left is split on
    quote-comma, and every part is stripped of the white space around it and
    then of the quotes around what remains. When there are two parts they
    are the pair under which the edge list is stored. *)
Theorem pair_key_decoding :
  key_parts "('Person', 'Company')" = ["Person"; "Company"]
  /\ (forall part, exists ws1 q1 q2 ws2,
        part = ws1 ++ (q1 ++ strip_part part ++ q2) ++ ws2
        /\ all_chars PyStr.isspace ws1 /\ all_chars PyStr.isspace ws2
        /\ all_chars is_quote q1 /\ all_chars is_quote q2
        /\ clean_ends PyStr.isspace (q1 ++ strip_part part ++ q2)
        /\ clean_ends is_quote (strip_part part))
  /\ forall key_str,
       (exists r, key_str = "('" ++ r) -> (exists r, key_str = r ++ "')") ->
       exists content,
         (key_str = "('" ++ content ++ "')"
          \/ key_str = "(')" /\ content = EmptyString)
         /\ PyStr.join "'," (PyStr.split content "',") = content
         /\ key_parts key_str = map strip_part (PyStr.split content "',")
         /\ forall part0 part1 edge_items json_str log,
              PyStr.split content "'," = [part0; part1] ->
              json_loads json_str
              = Decoded (PyDict [(key_str, PyList edge_items)]) ->
              convert_edge_mappings [(key_str, PyList edge_items)] log
              = (Return [((strip_part part0, strip_part part1),
                          PyList edge_items)],
                 (log ++ [CreatedEdgeMapping
                            (strip_part part0, strip_part part1)
                            (PyList edge_items)])%list)
              /\ parse_json_to_edge_mappings json_loads json_str log
                 = convert_edge_mappings [(key_str, PyList edge_items)] log.
Proof.
  split; [reflexivity | split; [exact PyStrFacts.strip_part_spec|]].
  intros key_str Hp Hs.
  destruct (key_shape Hp Hs) as [->|[content ->]].
  - exists EmptyString. repeat split; try reflexivity; try tauto.
    + discriminate.
    + now apply parse_json_to_edge_mappings_decoded.
  - exists content.
    destruct (well_formed_key content) as [H1 [H2 H3]].
    split; [now left | split; [|split; [assumption|]]].
    + apply PyStrFacts.join_split. discriminate.
    + intros part0 part1 edge_items json_str log Hsplit Hjson.
      split; [|now apply parse_json_to_edge_mappings_decoded].
      rewrite convert_edge_mappings_from_nil, edge_mappings_from_cons.
      rewrite H1, H2, H3, Hsplit. reflexivity.
Qed.

(** C9: of the key [(' A ', ' B ')] the first part is [ A ], which the strip
    of white space turns into [A]; the second part is [ ' B ], of which the
    strip of white space leaves the quote and what follows, and the strip of
    quotes then leaves [ B] with its space, which one more strip would
    remove. The table gets the pair [A], [ B]. *)
Theorem inner_space_of_second_part_survives
  (edge_items : list pyval) (json_str : string) (log : list log_record) :
  json_loads json_str
  = Decoded (PyDict [("(' A ', ' B ')", PyList edge_items)]) ->
  PyStr.split (PyStr.slice "(' A ', ' B ')" 2 (-2)) "'," = [" A "; " ' B "]
  /\ PyStr.strip " A " = "A"
  /\ PyStr.strip " ' B " = "' B"
  /\ PyStr.strip_chars "' B" ("'" ++ PyStr.dquote) = " B"
  /\ PyStr.strip " B" = "B"
  /\ key_parts "(' A ', ' B ')" = ["A"; " B"]
  /\ convert_edge_mappings [("(' A ', ' B ')", PyList edge_items)] log
     = (Return [(("A", " B"), PyList edge_items)],
        (log ++ [CreatedEdgeMapping ("A", " B") (PyList edge_items)])%list)
  /\ parse_json_to_edge_mappings json_loads json_str log
     = (Return [(("A", " B"), PyList edge_items)],
        (log ++ [CreatedEdgeMapping ("A", " B") (PyList edge_items)])%list).
Proof.
  intro Hjson.
  rewrite (parse_json_to_edge_mappings_decoded log Hjson).
  repeat split; reflexivity.
Qed.

(** C4: in a mapping of well-formed entries, when two keys decode to the
    same pair and no later key does, both builders return a table with
    exactly one entry for that pair, and it holds the value of the later of
    the two entries. *)
Theorem later_entry_replaces_earlier_one
  (first middle last : pydict pyval) (key1 key2 : string) (v1 v2 : pyval)
  (a b : string) (json_str : string) (log : list log_record) :
  Forall well_formed_entry
    (first ++ (key1, v1) :: middle ++ (key2, v2) :: last)%list ->
  key1 <> key2 ->
  key_parts key1 = [a; b] ->
  key_parts key2 = [a; b] ->
  (forall k v, In (k, v) last -> key_parts k <> [a; b]) ->
  json_loads json_str
  = Decoded (PyDict (first ++ (key1, v1) :: middle ++ (key2, v2) :: last)%list) ->
  exists table log',
    convert_edge_mappings
      (first ++ (key1, v1) :: middle ++ (key2, v2) :: last)%list log
    = (Return table, log')
    /\ parse_json_to_edge_mappings json_loads json_str log
       = (Return table, log')
    /\ filter (fun e => pair_eqb (fst e) (a, b)) table = [((a, b), v2)].
Proof.
  intros Hwf _ _ Hk2 Hlast Hjson.
  rewrite (parse_json_to_edge_mappings_decoded log Hjson).
  rewrite convert_edge_mappings_from_nil.
  destruct (edge_mappings_from_well_formed Hwf [] log) as [table [log' Hrun]].
  exists table, log'. split; [assumption | split; [assumption|]].
  change (first ++ (key1, v1) :: middle ++ (key2, v2) :: last)%list
    with (first ++ ((key1, v1) :: middle) ++ (key2, v2) :: last)%list in Hrun.
  rewrite app_assoc, edge_mappings_from_app in Hrun.
  destruct (edge_mappings_from [] (first ++ (key1, v1) :: middle)%list log)
    as [[acc|e] log1] eqn:Hpre; [|discriminate].
  apply (edge_mappings_from_invariant) in Hpre; [|constructor].
  destruct Hpre as [Hnd _].
  rewrite edge_mappings_from_cons in Hrun.
  destruct (negb (PyStr.startswith key2 "('")
            || negb (PyStr.endswith key2 "')")); [discriminate|].
  rewrite Hk2 in Hrun. destruct (is_list v2); [|discriminate].
  apply edge_mappings_from_invariant in Hrun;
    [|apply dict_set_NoDup; solve [exact pair_eqb_eq | assumption]].
  destruct Hrun as [Hnd' Hget].
  apply filter_key_unique; [apply pair_eqb_eq | assumption|].
  apply Hget; [apply dict_get_set_same, pair_eqb_eq | exact Hlast].
Qed.

End Properties.

(** * The properties on sample inputs *)

Example split_on_quote_comma :
  PyStr.split "A', 'B" "'," = ["A"; " 'B"]
  /\ PyStr.split "a',',b'," "'," = ["a"; ""; "b"; ""]
  /\ PyStr.split "" "'," = [""].
Proof. repeat split. Qed.

Example slice_of_keys :
  PyStr.slice "('A', 'B')" 2 (-2) = "A', 'B" /\ PyStr.slice "(')" 2 (-2) = "".
Proof. split; reflexivity. Qed.

Example reader_reads_writer :
  JsonRef.loads (Sample.text (PyDict Sample.person))
  = Decoded (PyDict Sample.person)
  /\ JsonRef.loads "{} x" = JSONDecodeError "Extra data"
  /\ JsonRef.loads "[1.5]" = JSONDecodeError "Expecting value".
Proof. repeat split; vm_compute; reflexivity. Qed.

Example two_spellings_table :
  convert_edge_mappings Sample.two_spellings []
  = (Return [(("A", "B"), PyList [PyStr "MANAGES"])],
     [CreatedEdgeMapping ("A", "B") (PyList [PyStr "WORKS_AT"]);
      CreatedEdgeMapping ("A", "B") (PyList [PyStr "MANAGES"])]).
Proof. vm_compute. reflexivity. Qed.

Example three_names_in_a_key :
  exists msg,
    convert_edge_mappings [("('A', 'B', 'C')", PyList [])] []
    = (Raise (ValueError
                ("Failed to parse edge mapping key '('A', 'B', 'C')': " ++ msg)),
       [])
    /\ msg = "Edge mapping key must have exactly 2 entities: '('A', 'B', 'C')'".
Proof. eexists. split; vm_compute; reflexivity. Qed.

Lemma edge_types_raise_ValueError_for_unknown_type_witness :
  ~ In "string" (map fst TYPE_MAPPING)
  /\ JsonRef.loads (Sample.text (PyDict Sample.unknown_edge_field))
     = Decoded (PyDict Sample.unknown_edge_field)
  /\ parse_json_to_entity_types JsonRef.loads Sample.accepts Sample.float_str
       (Sample.text (PyDict Sample.unknown_edge_field)) []
     = (Raise (TypeError
                 ("Unsupported field type 'string' for field 'x' in entity "
                  ++ "'Edge'. Supported types: " ++ supported_types)), [])
  /\ parse_json_to_edge_types JsonRef.loads Sample.accepts Sample.float_str
       (Sample.text (PyDict Sample.unknown_edge_field)) []
     = (Raise (ValueError
                 ("Failed to parse edge types: Unsupported field type "
                  ++ "'string' for field 'x' in entity 'Edge'. "
                  ++ "Supported types: " ++ supported_types)), []).
Proof.
  assert (Ht : ~ In "string" (map fst TYPE_MAPPING))
    by (cbn; intuition discriminate).
  assert (Hj : JsonRef.loads (Sample.text (PyDict Sample.unknown_edge_field))
               = Decoded (PyDict Sample.unknown_edge_field))
    by (vm_compute; reflexivity).
  split; [exact Ht | split; [exact Hj|]].
  exact (@edge_types_raise_ValueError_for_unknown_type JsonRef.loads
           Sample.accepts Sample.float_str "Edge" "x" "string"
           (Sample.text (PyDict Sample.unknown_edge_field)) [] Ht Hj).
Defined.

Lemma json_route_equals_dict_route_witness :
  JsonRef.loads (JsonRef.dumps Sample.float_str (PyDict Sample.works_at))
  = Decoded (PyDict Sample.works_at)
  /\ parse_json_to_edge_mappings JsonRef.loads
       (JsonRef.dumps Sample.float_str (PyDict Sample.works_at)) []
     = convert_edge_mappings Sample.works_at []
  /\ parse_json_to_entity_types JsonRef.loads Sample.accepts Sample.float_str
       (JsonRef.dumps Sample.float_str (PyDict Sample.works_at)) []
     = create_entity_types_from_dict Sample.accepts Sample.float_str
         Sample.works_at [].
Proof.
  assert (Hj : JsonRef.loads
                 (JsonRef.dumps Sample.float_str (PyDict Sample.works_at))
               = Decoded (PyDict Sample.works_at))
    by (vm_compute; reflexivity).
  split; [exact Hj|].
  exact (@json_route_equals_dict_route JsonRef.loads Sample.accepts
           Sample.float_str (JsonRef.dumps Sample.float_str)
           Sample.works_at [] Hj).
Defined.

Lemma empty_input_gives_empty_table_witness :
  JsonRef.loads "{}" = Decoded (PyDict [])
  /\ create_entity_types_from_dict Sample.accepts Sample.float_str [] []
     = (Return [], [])
  /\ convert_edge_mappings [] [] = (Return [], [])
  /\ parse_json_to_entity_types JsonRef.loads Sample.accepts Sample.float_str
       "{}" [] = (Return [], [])
  /\ parse_json_to_edge_types JsonRef.loads Sample.accepts Sample.float_str
       "{}" [] = (Return [], [])
  /\ parse_json_to_edge_mappings JsonRef.loads "{}" [] = (Return [], []).
Proof.
  assert (Hj : JsonRef.loads "{}" = Decoded (PyDict []))
    by (vm_compute; reflexivity).
  split; [exact Hj|].
  exact (@empty_input_gives_empty_table JsonRef.loads Sample.accepts
           Sample.float_str [] Hj).
Defined.

Lemma unknown_field_type_raises_type_error_witness :
  ~ In "integer" (map fst TYPE_MAPPING)
  /\ In ("Company", PyDict [("fields", PyDict Sample.company_fields)])
       Sample.person_and_company
  /\ In ("size", PyStr "integer") Sample.company_fields
  /\ JsonRef.loads (Sample.text (PyDict Sample.person_and_company))
     = Decoded (PyDict Sample.person_and_company)
  /\ create_entity_types_from_dict Sample.accepts Sample.float_str
       Sample.person_and_company []
     = (Raise (TypeError
                 ("Unsupported field type 'integer' for field 'size' in "
                  ++ "entity 'Company'. Supported types: " ++ supported_types)),
        [CreatedEntityType "Person"])
  /\ parse_json_to_entity_types JsonRef.loads Sample.accepts Sample.float_str
       (Sample.text (PyDict Sample.person_and_company)) []
     = create_entity_types_from_dict Sample.accepts Sample.float_str
         Sample.person_and_company [].
Proof.
  assert (Ht : ~ In "integer" (map fst TYPE_MAPPING))
    by (cbn; intuition discriminate).
  assert (He : In ("Company", PyDict [("fields", PyDict Sample.company_fields)])
                 Sample.person_and_company) by (right; left; reflexivity).
  assert (Hf : In ("size", PyStr "integer") Sample.company_fields)
    by (right; left; reflexivity).
  assert (Hj : JsonRef.loads (Sample.text (PyDict Sample.person_and_company))
               = Decoded (PyDict Sample.person_and_company))
    by (vm_compute; reflexivity).
  destruct (@unknown_field_type_raises_type_error JsonRef.loads Sample.accepts
              Sample.float_str Sample.person_and_company "Company"
              [("fields", PyDict Sample.company_fields)] Sample.company_fields
              "size" "integer"
              (Sample.text (PyDict Sample.person_and_company)) []
              Ht He eq_refl Hf Hj) as [Hparse [_ Hfirst]].
  split; [exact Ht | split; [exact He | split; [exact Hf | split; [exact Hj|]]]].
  split; [|exact Hparse].
  eapply Hfirst
    with (pre := [("Person", PyDict [("fields", PyDict [("name", PyStr "str")])])])
         (post := [])
         (fields_before := [("title", PyStr "str")])
         (fields_after := [("tags", PyStr "List[str]")]).
  - reflexivity.
  - reflexivity.
  - constructor; [|constructor]. exists "str". split; [reflexivity | now left].
  - reflexivity.
Defined.

Lemma later_entry_replaces_earlier_one_witness :
  Forall well_formed_entry Sample.two_spellings
  /\ "('A','B')" <> "('A', 'B')"
  /\ key_parts "('A','B')" = ["A"; "B"]
  /\ key_parts "('A', 'B')" = ["A"; "B"]
  /\ JsonRef.loads (Sample.text (PyDict Sample.two_spellings))
     = Decoded (PyDict Sample.two_spellings)
  /\ exists table log',
       convert_edge_mappings Sample.two_spellings [] = (Return table, log')
       /\ parse_json_to_edge_mappings JsonRef.loads
            (Sample.text (PyDict Sample.two_spellings)) []
          = (Return table, log')
       /\ filter (fun e => pair_eqb (fst e) ("A", "B")) table
          = [(("A", "B"), PyList [PyStr "MANAGES"])].
Proof.
  assert (Hwf : Forall well_formed_entry Sample.two_spellings).
  { constructor; [|constructor; [|constructor]].
    - exists "A','B", "A", "'B", [PyStr "WORKS_AT"]. repeat split.
    - exists "A', 'B", "A", " 'B", [PyStr "MANAGES"]. repeat split. }
  assert (Hne : "('A','B')" <> "('A', 'B')") by discriminate.
  assert (Hk1 : key_parts "('A','B')" = ["A"; "B"]) by reflexivity.
  assert (Hk2 : key_parts "('A', 'B')" = ["A"; "B"]) by reflexivity.
  assert (Hj : JsonRef.loads (Sample.text (PyDict Sample.two_spellings))
               = Decoded (PyDict Sample.two_spellings))
    by (vm_compute; reflexivity).
  split; [exact Hwf | split; [exact Hne | split; [exact Hk1|]]].
  split; [exact Hk2 | split; [exact Hj|]].
  exact (@later_entry_replaces_earlier_one JsonRef.loads [] [] []
           "('A','B')" "('A', 'B')" (PyList [PyStr "WORKS_AT"])
           (PyList [PyStr "MANAGES"]) "A" "B"
           (Sample.text (PyDict Sample.two_spellings)) []
           Hwf Hne Hk1 Hk2 (fun k v (H : In (k, v) []) => match H with end) Hj).
Defined.

Lemma person_definition_builds_two_required_fields_witness :
  Sample.accepts "Person"
    [("name", (Tstr, Ellipsis)); ("age", (Tint, Ellipsis))] = None
  /\ JsonRef.loads (Sample.text (PyDict Sample.person))
     = Decoded (PyDict Sample.person)
  /\ create_entity_types_from_dict Sample.accepts Sample.float_str
       Sample.person []
     = (Return
          [("Person",
            {| model_name := "Person";
               model_fields :=
                 [("name", {| annotation := Tstr; is_required := true |});
                  ("age", {| annotation := Tint; is_required := true |})];
               model_doc := PyStr "A person" |})],
        [CreatedEntityType "Person"])
  /\ parse_json_to_entity_types JsonRef.loads Sample.accepts Sample.float_str
       (Sample.text (PyDict Sample.person)) []
     = create_entity_types_from_dict Sample.accepts Sample.float_str
         Sample.person [].
Proof.
  assert (Hj : JsonRef.loads (Sample.text (PyDict Sample.person))
               = Decoded (PyDict Sample.person)) by (vm_compute; reflexivity).
  split; [reflexivity | split; [exact Hj|]].
  exact (@person_definition_builds_two_required_fields JsonRef.loads
           Sample.accepts Sample.float_str "Person"
           [("fields", PyDict [("name", PyStr "str"); ("age", PyStr "int")]);
            ("docstring", PyStr "A person")]
           (Sample.text (PyDict Sample.person)) []
           eq_refl eq_refl eq_refl Hj).
Defined.

Lemma pair_key_decoding_witness :
  (exists r, "('Person', 'Company')" = "('" ++ r)
  /\ (exists r, "('Person', 'Company')" = r ++ "')")
  /\ exists content,
       ("('Person', 'Company')" = "('" ++ content ++ "')"
        \/ "('Person', 'Company')" = "(')" /\ content = EmptyString)
       /\ PyStr.join "'," (PyStr.split content "',") = content
       /\ key_parts "('Person', 'Company')"
          = map strip_part (PyStr.split content "',").
Proof.
  assert (Hp : exists r, "('Person', 'Company')" = "('" ++ r)
    by (exists "Person', 'Company')"; reflexivity).
  assert (Hs : exists r, "('Person', 'Company')" = r ++ "')")
    by (exists "('Person', 'Company"; reflexivity).
  split; [exact Hp | split; [exact Hs|]].
  destruct (pair_key_decoding JsonRef.loads) as [_ [_ H]].
  destruct (H "('Person', 'Company')" Hp Hs) as [content [H1 [H2 [H3 _]]]].
  exists content. auto.
Defined.

Lemma malformed_key_raises_key_format_error_witness :
  In ("(A, B)", PyList [PyStr "KNOWS"]) Sample.bare_key
  /\ (~ (exists r, "(A, B)" = "('" ++ r) \/ ~ (exists r, "(A, B)" = r ++ "')"))
  /\ JsonRef.loads (Sample.text (PyDict Sample.bare_key))
     = Decoded (PyDict Sample.bare_key)
  /\ convert_edge_mappings Sample.bare_key []
     = (Raise (ValueError
                 ("Invalid edge mapping key format: '(A, B)'. Expected format: "
                  ++ PyStr.dquote ++ "('Source', 'Target')" ++ PyStr.dquote)),
        [CreatedEdgeMapping ("A", "B") (PyList [])])
  /\ parse_json_to_edge_mappings JsonRef.loads
       (Sample.text (PyDict Sample.bare_key)) []
     = convert_edge_mappings Sample.bare_key [].
Proof.
  assert (Hin : In ("(A, B)", PyList [PyStr "KNOWS"]) Sample.bare_key)
    by (right; left; reflexivity).
  assert (Hk : ~ (exists r, "(A, B)" = "('" ++ r)
               \/ ~ (exists r, "(A, B)" = r ++ "')"))
    by (left; intros [r H]; discriminate H).
  assert (Hj : JsonRef.loads (Sample.text (PyDict Sample.bare_key))
               = Decoded (PyDict Sample.bare_key)) by (vm_compute; reflexivity).
  destruct (@malformed_key_raises_key_format_error JsonRef.loads
              Sample.bare_key "(A, B)" (PyList [PyStr "KNOWS"])
              (Sample.text (PyDict Sample.bare_key)) [] Hin Hk Hj)
    as [Hparse [_ Hfirst]].
  split; [exact Hin | split; [exact Hk | split; [exact Hj|]]].
  split; [|exact Hparse].
  apply Hfirst with (pre := [("('A', 'B')", PyList [])]) (post := [])
                    (table := [(("A", "B"), PyList [])]); reflexivity.
Defined.

Lemma non_list_value_raises_value_shape_error_witness :
  In ("('B', 'C')", PyStr "WORKS_AT") Sample.string_value
  /\ (forall l, PyStr "WORKS_AT" <> PyList l)
  /\ JsonRef.loads (Sample.text (PyDict Sample.string_value))
     = Decoded (PyDict Sample.string_value)
  /\ convert_edge_mappings Sample.string_value []
     = (Raise (ValueError
                 ("Failed to parse edge mapping key '('B', 'C')': Edge list "
                  ++ "for key '('B', 'C')' must be a list, got: <class 'str'>")),
        [CreatedEdgeMapping ("A", "B") (PyList [PyStr "KNOWS"])])
  /\ parse_json_to_edge_mappings JsonRef.loads
       (Sample.text (PyDict Sample.string_value)) []
     = convert_edge_mappings Sample.string_value [].
Proof.
  assert (Hin : In ("('B', 'C')", PyStr "WORKS_AT") Sample.string_value)
    by (right; left; reflexivity).
  assert (Hv : forall l, PyStr "WORKS_AT" <> PyList l)
    by (intros l H; discriminate H).
  assert (Hj : JsonRef.loads (Sample.text (PyDict Sample.string_value))
               = Decoded (PyDict Sample.string_value))
    by (vm_compute; reflexivity).
  destruct (@non_list_value_raises_value_shape_error JsonRef.loads
              Sample.string_value "('B', 'C')" (PyStr "WORKS_AT")
              (Sample.text (PyDict Sample.string_value)) [] Hin Hv Hj)
    as [Hparse [_ Hfirst]].
  split; [exact Hin | split; [exact Hv | split; [exact Hj|]]].
  split; [|exact Hparse].
  apply Hfirst with (pre := [("('A', 'B')", PyList [PyStr "KNOWS"])])
                    (post := []) (content := "B', 'C")
                    (part0 := "B") (part1 := " 'C")
                    (table := [(("A", "B"), PyList [PyStr "KNOWS"])]);
    reflexivity.
Defined.

Lemma inner_space_of_second_part_survives_witness :
  JsonRef.loads (Sample.text (PyDict Sample.spaced_key))
  = Decoded (PyDict Sample.spaced_key)
  /\ key_parts "(' A ', ' B ')" = ["A"; " B"]
  /\ convert_edge_mappings Sample.spaced_key []
     = (Return [(("A", " B"), PyList [PyStr "KNOWS"])],
        [CreatedEdgeMapping ("A", " B") (PyList [PyStr "KNOWS"])])
  /\ parse_json_to_edge_mappings JsonRef.loads
       (Sample.text (PyDict Sample.spaced_key)) []
     = (Return [(("A", " B"), PyList [PyStr "KNOWS"])],
        [CreatedEdgeMapping ("A", " B") (PyList [PyStr "KNOWS"])]).
Proof.
  assert (Hj : JsonRef.loads (Sample.text (PyDict Sample.spaced_key))
               = Decoded (PyDict Sample.spaced_key)) by (vm_compute; reflexivity).
  split; [exact Hj|].
  destruct (@inner_space_of_second_part_survives JsonRef.loads
              [PyStr "KNOWS"] (Sample.text (PyDict Sample.spaced_key)) [] Hj)
    as [_ [_ [_ [_ [_ [H6 [H7 H8]]]]]]].
  split; [exact H6 | split; [exact H7 | exact H8]].
Defined.

(** * Further facts about dictionaries *)

Section DictSetFacts.
Variables (K V : Type) (eqb : K -> K -> bool).
Hypothesis eqb_eq : forall a b, eqb a b = true <-> a = b.

(** An entry of a dictionary after an assignment is the one assigned or was
    there before. *)
Lemma dict_set_In (k n : K) (v m : V) (d : list (K * V)) :
  In (n, m) (dict_set eqb k v d) -> (n = k /\ m = v) \/ In (n, m) d.
Proof.
  induction d as [|[k' v'] d IH]; cbn.
  - intros [H|[]]. injection H as <- <-. now left.
  - destruct (eqb k' k) eqn:E; cbn.
    + apply eqb_eq in E. subst k'. intros [H|H].
      * injection H as <- <-. now left.
      * right. now right.
    + intros [H|H]; [right; now left|].
      destruct (IH H) as [?|?]; [now left | right; now right].
Qed.


(** The key assigned is a key afterwards, and so are the keys from before. *)
Lemma dict_set_key_In (k n : K) (v : V) (d : list (K * V)) :
  In n (map fst (dict_set eqb k v d)) <-> n = k \/ In n (map fst d).
Proof.
  rewrite dict_set_keys.
  destruct (existsb (fun e => eqb (fst e) k) d) eqn:E.
  - split; [tauto|]. intros [->|H]; [|assumption].
    apply existsb_exists in E. destruct E as [[k' v'] [Hin Hk]].
    cbn in Hk. apply eqb_eq in Hk. subst k'.
    apply in_map_iff. now exists (k, v').
  - rewrite in_app_iff. cbn. split; [intros [H|[H|[]]]; auto | intros [H|H]; auto].
Qed.

End DictSetFacts.

(** * Further properties of the module *)

Section EntityLoop.

Variable pydantic_rejects :
  string -> pydict (pytype * field_default) -> option exn.
Variable float_str : float -> string.

Lemma create_entity_types_from_nil (entity_data : pydict pyval) :
  create_entity_types_from_dict pydantic_rejects float_str entity_data
  = entity_types_from pydantic_rejects float_str [] entity_data.
Proof. reflexivity. Qed.

Lemma entity_types_from_app (acc : pydict Model) (a b : pydict pyval)
  (log : list log_record) :
  entity_types_from pydantic_rejects float_str acc (a ++ b)%list log =
  match entity_types_from pydantic_rejects float_str acc a log with
  | (Return acc', log') =>
      entity_types_from pydantic_rejects float_str acc' b log'
  | (Raise e, log') => (Raise e, log')
  end.
Proof. apply for_items_app. Qed.

(** One turn of the loop over the fields. *)
Lemma fields_from_cons (entity_name : string)
  (acc : pydict (pytype * field_default)) (field_name : string)
  (field_type_str : pyval) (rest : pydict pyval) (log : list log_record) :
  fields_from float_str entity_name acc ((field_name, field_type_str) :: rest)
    log =
  match field_type_str with
  | PyList _ | PyDict _ =>
      (Raise (TypeError
                ("unhashable type: '" ++ type_name field_type_str ++ "'")),
       log)
  | PyStr t =>
      match dict_get String.eqb t TYPE_MAPPING with
      | Some ty =>
          fields_from float_str entity_name
            (dict_set String.eqb field_name (ty, Ellipsis) acc) rest log
      | None =>
          (Raise (TypeError
                    (msg_unsupported_type float_str (HStr t) field_name
                       entity_name)), log)
      end
  | PyNone =>
      (Raise (TypeError
                (msg_unsupported_type float_str HNone field_name entity_name)),
       log)
  | PyBool b =>
      (Raise (TypeError
                (msg_unsupported_type float_str (HBool b) field_name
                   entity_name)), log)
  | PyInt z =>
      (Raise (TypeError
                (msg_unsupported_type float_str (HInt z) field_name
                   entity_name)), log)
  | PyFloat f =>
      (Raise (TypeError
                (msg_unsupported_type float_str (HFloat f) field_name
                   entity_name)), log)
  end.
Proof.
  unfold fields_from. cbn [for_items]. unfold bind at 1.
  destruct field_type_str; cbn [py_hash]; unfold bind, ret, raise;
    cbn [TYPE_MAPPING_get]; try reflexivity.
  destruct (dict_get String.eqb s TYPE_MAPPING); reflexivity.
Qed.

(** The loop over the fields writes nothing to the log and raises nothing but
    [TypeError]. *)
Lemma fields_from_outcome (entity_name : string) (field_items : pydict pyval) :
  forall acc log r log',
    fields_from float_str entity_name acc field_items log = (r, log') ->
    log' = log
    /\ forall e, r = Raise e -> exists msg, e = TypeError msg.
Proof.
  induction field_items as [|[f v] rest IH]; intros acc log r log' H.
  - cbn in H. injection H as <- <-. split; [reflexivity | discriminate].
  - rewrite fields_from_cons in H.
    destruct v;
      try (injection H as <- <-; split;
           [reflexivity | intros e He; injection He as <-; eauto]; fail).
    destruct (dict_get String.eqb s TYPE_MAPPING); [now apply IH in H|].
    injection H as <- <-. split; [reflexivity|].
    intros e He. injection He as <-. eauto.
Qed.

(** One turn of the loop of [create_entity_types_from_dict]. *)
Lemma entity_types_from_cons (acc : pydict Model) (entity_name : string)
  (entity_config : pyval) (rest : pydict pyval) (log : list log_record) :
  entity_types_from pydantic_rejects float_str acc
    ((entity_name, entity_config) :: rest) log =
  match entity_config with
  | PyDict config =>
      match dict_get String.eqb "fields" config with
      | Some (PyDict field_items) =>
          match fields_from float_str entity_name [] field_items log with
          | (Return field_definitions, log1) =>
              match pydantic_rejects entity_name field_definitions with
              | Some e =>
                  (Raise (ValueError (msg_create_failed entity_name e)), log1)
              | None =>
                  entity_types_from pydantic_rejects float_str
                    (dict_set String.eqb entity_name
                       (stored_model entity_name field_definitions
                          (docstring_of config)) acc)
                    rest (log1 ++ [CreatedEntityType entity_name])%list
              end
          | (Raise e, log1) => (Raise e, log1)
          end
      | Some fields =>
          (Raise (AttributeError
                    ("'" ++ type_name fields
                     ++ "' object has no attribute 'items'")), log)
      | None => (Raise (ValueError (msg_must_have_fields entity_name)), log)
      end
  | _ => (Raise (ValueError (msg_must_have_fields entity_name)), log)
  end.
Proof.
  unfold entity_types_from. cbn [for_items]. unfold bind at 1.
  destruct entity_config; try reflexivity.
  destruct (dict_get String.eqb "fields" d) as [fields|]; [|reflexivity].
  destruct fields; try reflexivity.
  cbn [py_items]. unfold bind at 1. unfold ret at 1. unfold bind at 1.
  fold (fields_from float_str entity_name [] d0).
  destruct (fields_from float_str entity_name [] d0 log)
    as [[field_definitions|e] log1]; [|reflexivity].
  unfold try_except, bind, create_model.
  destruct (pydantic_rejects entity_name field_definitions); [reflexivity|].
  unfold ret, logger_info, stored_model, docstring_of, set_doc. cbn.
  destruct (truthy _); reflexivity.
Qed.

End EntityLoop.

Section EntityProperties.

Variable json_loads : string -> json_result.
Variable pydantic_rejects :
  string -> pydict (pytype * field_default) -> option exn.
Variable float_str : float -> string.

(** The outcome of the loop over the fields does not depend on the log. *)
Lemma fields_from_any_log (entity_name : string) (field_items : pydict pyval) :
  forall acc log,
    fields_from float_str entity_name acc field_items log
    = (fst (fields_from float_str entity_name acc field_items []), log).
Proof.
  induction field_items as [|[f v] rest IH]; intros acc log.
  - reflexivity.
  - rewrite !fields_from_cons. destruct v; try reflexivity.
    destruct (dict_get String.eqb s TYPE_MAPPING); [apply IH | reflexivity].
Qed.

Lemma fields_from_app (entity_name : string)
  (acc : pydict (pytype * field_default)) (a b : pydict pyval)
  (log : list log_record) :
  fields_from float_str entity_name acc (a ++ b)%list log =
  match fields_from float_str entity_name acc a log with
  | (Return acc', log') => fields_from float_str entity_name acc' b log'
  | (Raise e, log') => (Raise e, log')
  end.
Proof. apply for_items_app. Qed.

(** The loop over the fields returns exactly on supported fields. *)
Lemma fields_from_returns_iff (entity_name : string)
  (field_items : pydict pyval) :
  forall acc log,
    (exists defs, fields_from float_str entity_name acc field_items log
                  = (Return defs, log))
    <-> Forall supported_field field_items.
Proof.
  induction field_items as [|[f v] rest IH]; intros acc log.
  - split; [constructor | intros _; now exists acc].
  - rewrite fields_from_cons. split.
    + intros [defs H]. destruct v; try discriminate.
      destruct (dict_get String.eqb s TYPE_MAPPING) as [ty|] eqn:E;
        [|discriminate].
      constructor; [|apply (IH (dict_set String.eqb f (ty, Ellipsis) acc) log);
                     eauto].
      exists s. split; [reflexivity|].
      destruct (in_dec string_dec s (map fst TYPE_MAPPING)) as [Hin|Hout];
        [assumption|].
      rewrite (dict_get_absent String.eqb String.eqb_eq _ _ Hout) in E.
      discriminate.
    + intro H. inversion H as [|? ? [t [Hv Ht]] Hrest]; subst.
      cbn [snd] in Hv. subst v.
      destruct (dict_get_present String.eqb String.eqb_eq _ _ Ht) as [ty ->].
      now apply IH.
Qed.

(** A table with an entry on which one turn of the loop raises is refused. *)
Lemma entity_types_from_refused (items : pydict pyval) (entity_name : string)
  (entity_config : pyval) :
  In (entity_name, entity_config) items ->
  (forall acc log, exists e log',
      entity_types_from pydantic_rejects float_str acc
        [(entity_name, entity_config)] log = (Raise e, log')) ->
  forall acc log, exists e log',
    entity_types_from pydantic_rejects float_str acc items log = (Raise e, log').
Proof.
  intros Hin Hone. unfold entity_types_from in *.
  apply for_items_raises with (k := entity_name) (v := entity_config);
    [assumption|].
  intros acc log. destruct (Hone acc log) as [e [log' H]].
  cbn [for_items] in H. unfold bind in H.
  match type of H with
  | (let (_, _) := ?b in _) = _ => destruct b as [[acc'|e0] l0] eqn:E
  end; [discriminate | exists e0, l0; exact E].
Qed.

(** X1: a type definition that is not a dictionary, or is a dictionary
    without the key [fields], makes both builders of entity types fail; when
    it is the first fault the exception is [ValueError] and its message names
    the entity. *)
Theorem entity_without_fields_is_refused
  (entity_data : pydict pyval) (entity_name : string) (entity_config : pyval)
  (json_str : string) (log : list log_record) :
  In (entity_name, entity_config) entity_data ->
  (forall config, entity_config = PyDict config ->
                  dict_get String.eqb "fields" config = None) ->
  json_loads json_str = Decoded (PyDict entity_data) ->
  parse_json_to_entity_types json_loads pydantic_rejects float_str
    json_str log
  = create_entity_types_from_dict pydantic_rejects float_str entity_data log
  /\ (exists e log',
        create_entity_types_from_dict pydantic_rejects float_str
          entity_data log = (Raise e, log'))
  /\ forall pre post types log',
       entity_data = (pre ++ (entity_name, entity_config) :: post)%list ->
       create_entity_types_from_dict pydantic_rejects float_str pre log
       = (Return types, log') ->
       create_entity_types_from_dict pydantic_rejects float_str
         entity_data log
       = (Raise (ValueError
                   ("Entity '" ++ entity_name ++ "' must have 'fields' key")),
          log').
Proof.
  intros Hin Hno Hjson.
  assert (Hturn : forall acc rest l,
             entity_types_from pydantic_rejects float_str acc
               ((entity_name, entity_config) :: rest) l
             = (Raise (ValueError (msg_must_have_fields entity_name)), l)).
  { intros acc rest l. rewrite entity_types_from_cons.
    destruct entity_config; try reflexivity.
    now rewrite (Hno d eq_refl). }
  split; [now apply parse_json_to_entity_types_decoded | split].
  - rewrite create_entity_types_from_nil.
    apply entity_types_from_refused with entity_name entity_config;
      [assumption|]. intros acc l. rewrite Hturn. eauto.
  - intros pre post types log' -> Hpre.
    rewrite create_entity_types_from_nil in *.
    now rewrite entity_types_from_app, Hpre, Hturn.
Qed.

(** X2: a type definition whose [fields] is not a dictionary makes both
    builders of entity types fail; when it is the first fault the exception
    is the [AttributeError] of the call of [items], which names the type of
    the value found. *)
Theorem fields_not_a_dict_raises_AttributeError
  (entity_data : pydict pyval) (entity_name : string) (config : pydict pyval)
  (fields : pyval) (json_str : string) (log : list log_record) :
  In (entity_name, PyDict config) entity_data ->
  dict_get String.eqb "fields" config = Some fields ->
  (forall d, fields <> PyDict d) ->
  json_loads json_str = Decoded (PyDict entity_data) ->
  parse_json_to_entity_types json_loads pydantic_rejects float_str
    json_str log
  = create_entity_types_from_dict pydantic_rejects float_str entity_data log
  /\ (exists e log',
        create_entity_types_from_dict pydantic_rejects float_str
          entity_data log = (Raise e, log'))
  /\ forall pre post types log',
       entity_data = (pre ++ (entity_name, PyDict config) :: post)%list ->
       create_entity_types_from_dict pydantic_rejects float_str pre log
       = (Return types, log') ->
       create_entity_types_from_dict pydantic_rejects float_str
         entity_data log
       = (Raise (AttributeError
                   ("'" ++ type_name fields
                    ++ "' object has no attribute 'items'")),
          log').
Proof.
  intros Hin Hfields Hnot Hjson.
  assert (Hturn : forall acc rest l,
             entity_types_from pydantic_rejects float_str acc
               ((entity_name, PyDict config) :: rest) l
             = (Raise (AttributeError
                         ("'" ++ type_name fields
                          ++ "' object has no attribute 'items'")), l)).
  { intros acc rest l. rewrite entity_types_from_cons, Hfields.
    destruct fields; try reflexivity. now destruct (Hnot d). }
  split; [now apply parse_json_to_entity_types_decoded | split].
  - rewrite create_entity_types_from_nil.
    apply entity_types_from_refused with entity_name (PyDict config);
      [assumption|]. intros acc l. rewrite Hturn. eauto.
  - intros pre post types log' -> Hpre.
    rewrite create_entity_types_from_nil in *.
    now rewrite entity_types_from_app, Hpre, Hturn.
Qed.

(** The loop over the fields raises when some field is not supported. *)
Lemma fields_from_unsupported (entity_name : string)
  (field_items : pydict pyval) (fd : string * pyval)
  (acc : pydict (pytype * field_default)) (log : list log_record) :
  In fd field_items -> ~ supported_field fd ->
  exists e, fields_from float_str entity_name acc field_items log
            = (Raise e, log).
Proof.
  intros Hin Hbad.
  destruct (fields_from float_str entity_name acc field_items log)
    as [[defs|e] log'] eqn:E.
  - destruct (fields_from_outcome _ _ _ _ _ E) as [-> _].
    assert (H : Forall supported_field field_items)
      by (apply (fields_from_returns_iff entity_name field_items acc log);
          eauto).
    rewrite Forall_forall in H. now destruct (Hbad (H fd Hin)).
  - destruct (fields_from_outcome _ _ _ _ _ E) as [-> _]. eauto.
Qed.

(** X3: a field whose declared type is not a string (null, a number, a
    list ...) makes both builders of entity types fail. When it is the first
    fault the exception is [TypeError]; for a value that can be hashed the
    message is the one of an unsupported type, with the value as [str]
    prints it. *)
Theorem field_type_not_a_string_raises_TypeError
  (entity_data : pydict pyval) (entity_name : string) (config : pydict pyval)
  (field_items : pydict pyval) (field_name : string) (v : pyval)
  (json_str : string) (log : list log_record) :
  In (entity_name, PyDict config) entity_data ->
  dict_get String.eqb "fields" config = Some (PyDict field_items) ->
  In (field_name, v) field_items ->
  (forall t, v <> PyStr t) ->
  json_loads json_str = Decoded (PyDict entity_data) ->
  parse_json_to_entity_types json_loads pydantic_rejects float_str
    json_str log
  = create_entity_types_from_dict pydantic_rejects float_str entity_data log
  /\ (exists e log',
        create_entity_types_from_dict pydantic_rejects float_str
          entity_data log = (Raise e, log'))
  /\ forall pre post before after types log',
       entity_data = (pre ++ (entity_name, PyDict config) :: post)%list ->
       field_items = (before ++ (field_name, v) :: after)%list ->
       Forall supported_field before ->
       create_entity_types_from_dict pydantic_rejects float_str pre log
       = (Return types, log') ->
       exists msg,
         create_entity_types_from_dict pydantic_rejects float_str
           entity_data log
         = (Raise (TypeError msg), log')
         /\ forall h, py_hash v [] = (Return h, []) ->
                      msg = "Unsupported field type '"
                            ++ hashable_str float_str h
                            ++ "' for field '" ++ field_name
                            ++ "' in entity '" ++ entity_name
                            ++ "'. Supported types: " ++ supported_types.
Proof.
  intros Hin Hfields Hfield Hnot Hjson.
  split; [now apply parse_json_to_entity_types_decoded | split].
  - rewrite create_entity_types_from_nil.
    apply entity_types_from_refused with entity_name (PyDict config);
      [assumption|]. intros acc l.
    rewrite entity_types_from_cons, Hfields.
    destruct (@fields_from_unsupported entity_name field_items
                (field_name, v) [] l Hfield) as [e ->]; [|eauto].
    intros [t [Ht _]]. now apply (Hnot t).
  - intros pre post before after types log' -> -> Hbefore Hpre.
    rewrite create_entity_types_from_nil in *.
    rewrite entity_types_from_app, Hpre, entity_types_from_cons, Hfields.
    rewrite fields_from_app.
    destruct (proj2 (fields_from_returns_iff entity_name before [] log')
                Hbefore) as [defs ->].
    rewrite fields_from_cons.
    destruct v; try (eexists; split; [reflexivity|];
                     intros h Hh; cbn in Hh; injection Hh as <-; reflexivity).
    + now destruct (Hnot s).
    + eexists. split; [reflexivity|]. intros h Hh. discriminate Hh.
    + eexists. split; [reflexivity|]. intros h Hh. discriminate Hh.
Qed.

(** X4: when pydantic refuses the model of an entity, both builders of
    entity types fail; when it is the first fault the exception is
    [ValueError], whatever pydantic raised, and its message names the entity
    and carries the text of pydantic's exception. *)
Theorem pydantic_refusal_raises_ValueError
  (entity_data : pydict pyval) (entity_name : string) (config : pydict pyval)
  (field_items : pydict pyval)
  (field_definitions : pydict (pytype * field_default)) (e : exn)
  (json_str : string) (log : list log_record) :
  In (entity_name, PyDict config) entity_data ->
  dict_get String.eqb "fields" config = Some (PyDict field_items) ->
  fields_from float_str entity_name [] field_items []
  = (Return field_definitions, []) ->
  pydantic_rejects entity_name field_definitions = Some e ->
  json_loads json_str = Decoded (PyDict entity_data) ->
  parse_json_to_entity_types json_loads pydantic_rejects float_str
    json_str log
  = create_entity_types_from_dict pydantic_rejects float_str entity_data log
  /\ (exists e' log',
        create_entity_types_from_dict pydantic_rejects float_str
          entity_data log = (Raise e', log'))
  /\ forall pre post types log',
       entity_data = (pre ++ (entity_name, PyDict config) :: post)%list ->
       create_entity_types_from_dict pydantic_rejects float_str pre log
       = (Return types, log') ->
       create_entity_types_from_dict pydantic_rejects float_str
         entity_data log
       = (Raise (ValueError
                   ("Failed to create entity model '" ++ entity_name ++ "': "
                    ++ exn_str e)),
          log').
Proof.
  intros Hin Hfields Hdefs Hrej Hjson.
  assert (Hturn : forall acc rest l,
             entity_types_from pydantic_rejects float_str acc
               ((entity_name, PyDict config) :: rest) l
             = (Raise (ValueError (msg_create_failed entity_name e)), l)).
  { intros acc rest l. rewrite entity_types_from_cons, Hfields.
    rewrite fields_from_any_log, Hdefs. cbn [fst]. now rewrite Hrej. }
  split; [now apply parse_json_to_entity_types_decoded | split].
  - rewrite create_entity_types_from_nil.
    apply entity_types_from_refused with entity_name (PyDict config);
      [assumption|]. intros acc l. rewrite Hturn. eauto.
  - intros pre post types log' -> Hpre.
    rewrite create_entity_types_from_nil in *.
    now rewrite entity_types_from_app, Hpre, Hturn.
Qed.


(** The loop of [create_entity_types_from_dict] returns exactly on
    well-formed entries. *)
Lemma entity_types_from_returns_iff (items : pydict pyval) :
  forall acc log,
    (exists table log',
        entity_types_from pydantic_rejects float_str acc items log
        = (Return table, log'))
    <-> Forall (well_formed_entity pydantic_rejects float_str) items.
Proof.
  induction items as [|[name cfg] rest IH]; intros acc log.
  - split; [constructor | intros _; now exists acc, log].
  - rewrite entity_types_from_cons. split.
    + intros [table [log' H]].
      destruct cfg as [| | | | | |config]; try discriminate.
      destruct (dict_get String.eqb "fields" config) as [fields|] eqn:Ef;
        [|discriminate].
      destruct fields as [| | | | | |field_items]; try discriminate.
      destruct (fields_from float_str name [] field_items log)
        as [[defs|e] log1] eqn:E; [|discriminate].
      destruct (pydantic_rejects name defs) eqn:R; [discriminate|].
      constructor; [|eapply IH; eauto].
      destruct (fields_from_outcome _ _ _ _ _ E) as [-> _].
      exists config, field_items, defs. cbn [fst snd].
      split; [reflexivity | split; [assumption | split; [|split]]].
      * apply (fields_from_returns_iff name field_items [] log). eauto.
      * rewrite fields_from_any_log in E. injection E as E.
        now rewrite fields_from_any_log, E.
      * assumption.
    + intro H. inversion H as [|? ? Hwf Hrest]; subst.
      destruct Hwf as [config [fi [defs [Hs [Hf [_ [Hd Hr]]]]]]].
      cbn [fst snd] in *. subst cfg. rewrite Hf.
      rewrite fields_from_any_log, Hd. cbn [fst]. rewrite Hr. now apply IH.
Qed.

(** X6: [create_entity_types_from_dict] returns a table exactly when every
    entry is well formed: a dictionary whose [fields] is a dictionary of
    supported type names, giving field definitions that pydantic accepts. The
    same holds of [parse_json_to_entity_types] on a text that decodes to the
    table of definitions. *)
Theorem entity_types_build_iff_well_formed
  (entity_data : pydict pyval) (log : list log_record) :
  ((exists table log',
       create_entity_types_from_dict pydantic_rejects float_str
         entity_data log = (Return table, log'))
   <-> Forall (well_formed_entity pydantic_rejects float_str) entity_data)
  /\ forall json_str,
       json_loads json_str = Decoded (PyDict entity_data) ->
       ((exists table log',
            parse_json_to_entity_types json_loads pydantic_rejects float_str
              json_str log = (Return table, log'))
        <-> Forall (well_formed_entity pydantic_rejects float_str)
              entity_data).
Proof.
  split.
  - rewrite create_entity_types_from_nil. apply entity_types_from_returns_iff.
  - intros json_str Hjson.
    rewrite (@parse_json_to_entity_types_decoded json_loads pydantic_rejects
               float_str json_str entity_data log Hjson).
    rewrite create_entity_types_from_nil. apply entity_types_from_returns_iff.
Qed.






End EntityProperties.

(** * Further facts about the string operations *)

Module KeyFormatFacts.
Import PyStr.

Lemma contains_tail (c : ascii) (s sep : string) :
  ~ contains (String c s) sep -> ~ contains s sep.
Proof.
  intros H [x [y E]]. apply H. exists (String c x), y. cbn. now rewrite E.
Qed.

(** A string without quote-comma is the only part of its split. *)
Lemma split_without_separator (s : string) :
  ~ contains s "'," -> split s "'," = [s].
Proof.
  unfold split. induction s as [|c s IH]; intro H; [reflexivity|].
  cbn [split_from]. destruct (startswith (String c s) "',") eqn:E.
  - apply PyStrFacts.startswith_iff in E. destruct E as [r Hr].
    destruct H. exists EmptyString, r. exact Hr.
  - rewrite IH by (now apply contains_tail with c). reflexivity.
Qed.

(** The first part of a split ends at the first quote-comma. *)
Lemma split_at_first_separator (a rest : string) :
  ~ contains a "'," ->
  split (a ++ "'," ++ rest) "'," = a :: split rest "',".
Proof.
  unfold split. induction a as [|c a IH]; intro H; [reflexivity|].
  change (String c a ++ "'," ++ rest) with (String c (a ++ "'," ++ rest)).
  cbn [split_from].
  destruct (startswith (String c (a ++ "'," ++ rest)) "',") eqn:E.
  - apply PyStrFacts.startswith_iff in E. destruct E as [r Hr].
    cbn in Hr. injection Hr as -> Hr. destruct a as [|d a].
    + cbn in Hr. discriminate Hr.
    + cbn in Hr. injection Hr as -> _. destruct H.
      exists EmptyString, a. reflexivity.
  - rewrite IH by (now apply contains_tail with c). reflexivity.
Qed.

(** White space, a quote and a name without quote-comma that does not begin
    with a comma hold no quote-comma. *)
Lemma no_separator_after_space (w b : string) :
  all_chars isspace w -> ~ contains b "'," -> (forall r, b <> "," ++ r) ->
  ~ contains (w ++ "'" ++ b) "',".
Proof.
  intros Hw Hb Hcomma. induction w as [|c w IH]; intros [x [y E]].
  - cbn in E. destruct x as [|d x]; cbn in E.
    + injection E as E. now apply (Hcomma y).
    + injection E as _ E. apply Hb. now exists x, y.
  - destruct Hw as [Hc Hw]. specialize (IH Hw).
    destruct x as [|d x]; cbn in E.
    + injection E as -> _. discriminate Hc.
    + injection E as _ E. apply IH. now exists x, y.
Qed.

Lemma lstrip_by_run (p : ascii -> bool) (w s : string) :
  all_chars p w -> lstrip_by p (w ++ s) = lstrip_by p s.
Proof.
  induction w as [|c w IH]; intro H; [reflexivity|].
  destruct H as [Hc Hw]. cbn. rewrite Hc. now apply IH.
Qed.

Lemma lstrip_by_clean (p : ascii -> bool) (s : string) :
  (forall c r, s = String c r -> p c = false) -> lstrip_by p s = s.
Proof.
  intro H. destruct s as [|c s]; [reflexivity|].
  cbn. now rewrite (H c s eq_refl).
Qed.

Lemma rstrip_by_clean (p : ascii -> bool) (s : string) :
  (forall r c, s = r ++ String c EmptyString -> p c = false) ->
  rstrip_by p s = s.
Proof.
  induction s as [|c s IH]; intro H; [reflexivity|].
  cbn [rstrip_by]. destruct s as [|d s].
  - cbn. now rewrite (H EmptyString c eq_refl).
  - rewrite IH.
    + reflexivity.
    + intros r c' E. apply (H (String c r) c'). cbn. now rewrite E.
Qed.

(** A strip leaves a string with clean ends as it is. *)
Lemma strip_by_clean (p : ascii -> bool) (s : string) :
  clean_ends p s -> strip_by p s = s.
Proof.
  intros [H1 H2]. unfold strip_by.
  rewrite (lstrip_by_clean p H1). now apply rstrip_by_clean.
Qed.

Lemma strip_part_plain (a : string) : plain_name a -> strip_part a = a.
Proof.
  intros [Hs [Hq _]]. unfold strip_part, strip, strip_chars.
  rewrite (strip_by_clean Hs).
  now apply (strip_by_clean (p := is_quote)).
Qed.

(** Behind white space and an opening quote, a plain name is what the two
    strips leave. *)
Lemma strip_part_quoted (w b : string) :
  all_chars isspace w -> plain_name b -> strip_part (w ++ "'" ++ b) = b.
Proof.
  intros Hw [[_ Hs] [Hq _]]. unfold strip_part, strip, strip_chars.
  assert (E : strip_by isspace (w ++ "'" ++ b) = "'" ++ b).
  { unfold strip_by. rewrite lstrip_by_run by assumption.
    cbn [append lstrip_by]. change (isspace "'") with false. cbv iota.
    apply rstrip_by_clean. intros r c H. destruct r as [|d r]; cbn in H.
    - injection H as <- _. reflexivity.
    - injection H as _ H. now apply (Hs r). }
  rewrite E. change (fun c => mem c ("'" ++ dquote)) with is_quote.
  unfold strip_by. cbn [append lstrip_by]. change (is_quote "'") with true.
  cbv iota. now apply (strip_by_clean (p := is_quote)).
Qed.

(** Every part of a key has quote-clean ends. *)
Lemma key_parts_clean (key_str part : string) :
  In part (key_parts key_str) -> clean_ends is_quote part.
Proof.
  unfold key_parts. intro H. apply in_map_iff in H.
  destruct H as [x [<- _]].
  destruct (PyStrFacts.strip_part_spec x) as [? [? [? [? H]]]].
  apply H.
Qed.

End KeyFormatFacts.

Section MappingProperties.

Variable json_loads : string -> json_result.
Variable pydantic_rejects :
  string -> pydict (pytype * field_default) -> option exn.
Variable float_str : float -> string.

(** A mapping with an entry on which one turn of the loop raises is
    refused, with [ValueError]. *)
Lemma edge_mappings_from_turn_refused (items : pydict pyval)
  (key_str : string) (edge_list : pyval) :
  In (key_str, edge_list) items ->
  (forall acc log, exists e log',
      edge_mappings_from acc [(key_str, edge_list)] log = (Raise e, log')) ->
  forall acc log, exists msg log',
    edge_mappings_from acc items log = (Raise (ValueError msg), log').
Proof.
  intros Hin Hone acc log.
  assert (H : exists e log', edge_mappings_from acc items log = (Raise e, log')).
  { unfold edge_mappings_from in *.
    apply for_items_raises with (k := key_str) (v := edge_list); [assumption|].
    intros acc0 l. destruct (Hone acc0 l) as [e [log' H]].
    cbn [for_items] in H. unfold bind in H.
    match type of H with
    | (let (_, _) := ?b in _) = _ => destruct b as [[acc'|e0] l0] eqn:E
    end; [discriminate | exists e0, l0; exact E]. }
  destruct H as [e [log' He]].
  destruct (edge_mappings_from_raises_ValueError _ _ _ He) as [msg ->]. eauto.
Qed.

(** X8: a key that begins with [('] and ends with [')] but does not give
    exactly two parts makes both builders of the mapping table fail with
    [ValueError]; when it is the first fault, the message is the one of the
    wrong number of entities, inside the one of the failed key, and names the
    key twice. *)
Theorem key_without_two_parts_is_refused
  (edge_data : pydict pyval) (key_str : string) (edge_list : pyval)
  (json_str : string) (log : list log_record) :
  In (key_str, edge_list) edge_data ->
  (exists r, key_str = "('" ++ r) ->
  (exists r, key_str = r ++ "')") ->
  List.length (key_parts key_str) <> 2%nat ->
  json_loads json_str = Decoded (PyDict edge_data) ->
  parse_json_to_edge_mappings json_loads json_str log
  = convert_edge_mappings edge_data log
  /\ (exists msg log',
        convert_edge_mappings edge_data log = (Raise (ValueError msg), log'))
  /\ forall pre post table log',
       edge_data = (pre ++ (key_str, edge_list) :: post)%list ->
       convert_edge_mappings pre log = (Return table, log') ->
       convert_edge_mappings edge_data log
       = (Raise (ValueError
                   ("Failed to parse edge mapping key '" ++ key_str
                    ++ "': Edge mapping key must have exactly 2 entities: '"
                    ++ key_str ++ "'")),
          log').
Proof.
  intros Hin Hp Hs Hlen Hjson.
  assert (Hturn : forall acc rest l,
             edge_mappings_from acc ((key_str, edge_list) :: rest) l
             = (Raise (ValueError
                         (msg_mapping_failed key_str
                            (ValueError (msg_key_arity key_str)))), l)).
  { intros acc rest l. rewrite edge_mappings_from_cons.
    apply PyStrFacts.startswith_iff in Hp.
    apply PyStrFacts.endswith_iff in Hs. rewrite Hp, Hs. cbn [negb orb].
    destruct (key_parts key_str) as [|p0 [|p1 [|p2 ps]]]; try reflexivity.
    now destruct Hlen. }
  split; [now apply parse_json_to_edge_mappings_decoded | split].
  - rewrite convert_edge_mappings_from_nil.
    apply edge_mappings_from_turn_refused with key_str edge_list;
      [assumption|]. intros acc l. rewrite Hturn. eauto.
  - intros pre post table log' -> Hpre.
    rewrite convert_edge_mappings_from_nil in *.
    now rewrite edge_mappings_from_app, Hpre, Hturn.
Qed.

(** The loop of [convert_edge_mappings] returns exactly on well-formed
    entries. *)
Lemma edge_mappings_from_returns_iff (items : pydict pyval) :
  forall acc log,
    (exists table log', edge_mappings_from acc items log = (Return table, log'))
    <-> Forall well_formed_entry items.
Proof.
  intros acc log. split; [|intro H; now apply edge_mappings_from_well_formed].
  revert acc log. induction items as [|[k v] rest IH];
    intros acc log [table [log' H]]; [constructor|].
  rewrite edge_mappings_from_cons in H.
  destruct (PyStr.startswith k "('") eqn:Ep; [|discriminate].
  destruct (PyStr.endswith k "')") eqn:Es; [|discriminate].
  cbn [negb orb] in H.
  destruct (key_parts k) as [|p0 [|p1 [|p2 ps]]] eqn:Ek; try discriminate.
  destruct v as [| | | | |l|]; try discriminate. cbn [is_list] in H.
  constructor; [|eapply IH; eauto].
  apply PyStrFacts.startswith_iff in Ep. apply PyStrFacts.endswith_iff in Es.
  destruct (key_shape Ep Es) as [->|[content ->]]; [discriminate Ek|].
  destruct (well_formed_key content) as [_ [_ Hparts]].
  rewrite Hparts in Ek.
  destruct (PyStr.split content "',") as [|q0 [|q1 [|q2 qs]]] eqn:Eq;
    try discriminate.
  exists content, q0, q1, l. auto.
Qed.

(** X9: [convert_edge_mappings] returns a table exactly when every entry
    has a key of the form [('content')] whose content splits on quote-comma
    in two parts, and a list for value, whatever the list holds. The same
    holds of [parse_json_to_edge_mappings] on a text that decodes to the
    mapping. *)
Theorem edge_mappings_build_iff_well_formed
  (edge_data : pydict pyval) (log : list log_record) :
  ((exists table log',
       convert_edge_mappings edge_data log = (Return table, log'))
   <-> Forall well_formed_entry edge_data)
  /\ forall json_str,
       json_loads json_str = Decoded (PyDict edge_data) ->
       ((exists table log',
            parse_json_to_edge_mappings json_loads json_str log
            = (Return table, log'))
        <-> Forall well_formed_entry edge_data).
Proof.
  split.
  - rewrite convert_edge_mappings_from_nil.
    apply edge_mappings_from_returns_iff.
  - intros json_str Hjson.
    rewrite (@parse_json_to_edge_mappings_decoded json_loads json_str
               edge_data log Hjson).
    rewrite convert_edge_mappings_from_nil.
    apply edge_mappings_from_returns_iff.
Qed.

(** Where the entries of the table and the records of the log come from. *)
Lemma edge_mappings_from_origin (items : pydict pyval) :
  forall acc log table log',
    edge_mappings_from acc items log = (Return table, log') ->
    (exists new, log' = (log ++ new)%list /\ Forall2 logged_as items new)
    /\ (forall pair v,
          In (pair, v) table ->
          In (pair, v) acc
          \/ exists k, In (k, v) items /\ key_parts k = [fst pair; snd pair]
                       /\ exists l, v = PyList l)
    /\ (forall k v, In (k, v) items ->
                    exists a b, key_parts k = [a; b]
                                /\ In (a, b) (map fst table))
    /\ (forall pair, In pair (map fst acc) -> In pair (map fst table)).
Proof.
  induction items as [|[k v] rest IH]; intros acc log table log' H.
  - cbn in H. injection H as <- <-. split; [|split; [|split]]; auto.
    + exists []. split; [now rewrite app_nil_r | constructor].
    + intros k v [].
  - rewrite edge_mappings_from_cons in H.
    destruct (negb (PyStr.startswith k "('") || negb (PyStr.endswith k "')"));
      [discriminate|].
    destruct (key_parts k) as [|a [|b [|c ps]]] eqn:Ek; try discriminate.
    destruct v as [| | | | |l|]; try discriminate. cbn [is_list] in H.
    apply IH in H. destruct H as [[new [-> Hnew]] [Horigin [Hkeys Hkept]]].
    split; [|split; [|split]].
    + exists (CreatedEdgeMapping (a, b) (PyList l) :: new).
      split; [now rewrite <- app_assoc|].
      constructor; [|assumption]. now exists a, b.
    + intros pair v Hin. destruct (Horigin pair v Hin) as [Hacc|Hrest].
      * apply (dict_set_In pair_eqb pair_eqb_eq) in Hacc.
        destruct Hacc as [[-> ->]|Hacc]; [|now left].
        right. exists k. split; [now left | split; [assumption | eauto]].
      * right. destruct Hrest as [k' [H1 H2]]. exists k'.
        split; [now right | assumption].
    + intros k' v' [Heq|Hin].
      * injection Heq as <- <-. exists a, b. split; [assumption|].
        apply Hkept. rewrite (dict_set_key_In pair_eqb pair_eqb_eq). now left.
      * exact (Hkeys k' v' Hin).
    + intros pair Hin. apply Hkept.
      rewrite (dict_set_key_In pair_eqb pair_eqb_eq). now right.
Qed.

(** X10: the table that the builders of the mapping table return has
    distinct pairs. Every entry of it holds the value, a list, of an entry of
    the mapping whose key decodes to its pair, and neither name of a pair
    begins or ends with a quote; every key of the mapping decodes to a pair
    of the table. The log grows by one record per entry of the mapping, in
    order, with the decoded pair and the value. *)
Theorem edge_table_matches_mapping
  (edge_data : pydict pyval) (json_str : string)
  (log log' : list log_record) (table : edge_table) :
  json_loads json_str = Decoded (PyDict edge_data) ->
  parse_json_to_edge_mappings json_loads json_str log = (Return table, log') ->
  convert_edge_mappings edge_data log = (Return table, log')
  /\ NoDup (map fst table)
  /\ (exists new, log' = (log ++ new)%list /\ Forall2 logged_as edge_data new)
  /\ (forall pair v,
        In (pair, v) table ->
        (exists key_str, In (key_str, v) edge_data
                         /\ key_parts key_str = [fst pair; snd pair])
        /\ (exists l, v = PyList l)
        /\ clean_ends is_quote (fst pair) /\ clean_ends is_quote (snd pair))
  /\ (forall key_str v,
        In (key_str, v) edge_data ->
        exists a b, key_parts key_str = [a; b] /\ In (a, b) (map fst table)).
Proof.
  intros Hjson Hrun.
  rewrite (@parse_json_to_edge_mappings_decoded json_loads json_str
             edge_data log Hjson) in Hrun.
  split; [assumption|].
  rewrite convert_edge_mappings_from_nil in Hrun.
  destruct (edge_mappings_from_invariant _ _ _ Hrun (NoDup_nil _)) as [Hnd _].
  destruct (edge_mappings_from_origin _ _ _ Hrun)
    as [Hlog [Horigin [Hkeys _]]].
  split; [assumption | split; [assumption | split; [|assumption]]].
  intros pair v Hin.
  destruct (Horigin pair v Hin) as [[]|[k [H1 [H2 H3]]]].
  split; [eauto | split; [assumption|]].
  split; apply KeyFormatFacts.key_parts_clean with k; rewrite H2; cbn; auto.
Qed.

(** X11: the key format carries plain names: for names [a] and [b] with no
    white space and no quote at their ends and no quote-comma inside, [b] not
    beginning with a comma, the key made of [a] and [b] between single quotes,
    with any white space after the comma, decodes to the pair of [a] and [b],
    under which both builders store the list. *)
Theorem key_format_round_trip
  (a b w : string) (edge_items : list pyval) (json_str : string)
  (log : list log_record) :
  plain_name a -> plain_name b -> (forall r, b <> "," ++ r) ->
  all_chars PyStr.isspace w ->
  json_loads json_str
  = Decoded (PyDict [("('" ++ a ++ "'," ++ w ++ "'" ++ b ++ "')",
                      PyList edge_items)]) ->
  key_parts ("('" ++ a ++ "'," ++ w ++ "'" ++ b ++ "')") = [a; b]
  /\ convert_edge_mappings
       [("('" ++ a ++ "'," ++ w ++ "'" ++ b ++ "')", PyList edge_items)] log
     = (Return [((a, b), PyList edge_items)],
        (log ++ [CreatedEdgeMapping (a, b) (PyList edge_items)])%list)
  /\ parse_json_to_edge_mappings json_loads json_str log
     = (Return [((a, b), PyList edge_items)],
        (log ++ [CreatedEdgeMapping (a, b) (PyList edge_items)])%list).
Proof.
  intros Ha Hb Hcomma Hw Hjson.
  rewrite (@parse_json_to_edge_mappings_decoded json_loads json_str _ log
             Hjson).
  assert (Hkey : "('" ++ a ++ "'," ++ w ++ "'" ++ b ++ "')"
                 = "('" ++ (a ++ "'," ++ w ++ "'" ++ b) ++ "')").
  { now rewrite !PyStrFacts.append_assoc. }
  rewrite Hkey.
  destruct (well_formed_key (a ++ "'," ++ w ++ "'" ++ b)) as [H1 [H2 H3]].
  assert (Hparts : key_parts ("('" ++ (a ++ "'," ++ w ++ "'" ++ b) ++ "')")
                   = [a; b]).
  { rewrite H3.
    rewrite KeyFormatFacts.split_at_first_separator by apply Ha.
    rewrite KeyFormatFacts.split_without_separator
      by (apply KeyFormatFacts.no_separator_after_space;
          [assumption | apply Hb | assumption]).
    cbn [map].
    now rewrite KeyFormatFacts.strip_part_plain,
      KeyFormatFacts.strip_part_quoted. }
  split; [assumption|].
  assert (Hrun : convert_edge_mappings
                   [("('" ++ (a ++ "'," ++ w ++ "'" ++ b) ++ "')",
                     PyList edge_items)] log
                 = (Return [((a, b), PyList edge_items)],
                    (log ++ [CreatedEdgeMapping (a, b) (PyList edge_items)])%list)).
  { rewrite convert_edge_mappings_from_nil, edge_mappings_from_cons.
    rewrite H1, H2, Hparts. reflexivity. }
  split; assumption.
Qed.

End MappingProperties.

Module NameChecks.

Lemma occurs_false (sep s : string) : occurs sep s = false -> ~ contains s sep.
Proof.
  induction s as [|c s IH]; cbn [occurs]; intros H [x [y E]].
  - assert (Hs : PyStr.startswith EmptyString sep = true).
    { apply PyStrFacts.startswith_iff. exists y.
      destruct x; [exact E | discriminate E]. }
    congruence.
  - apply orb_false_iff in H. destruct H as [H1 H2].
    destruct x as [|d x].
    + assert (Hs : PyStr.startswith (String c s) sep = true)
        by (apply PyStrFacts.startswith_iff; now exists y).
      congruence.
    + cbn in E. injection E as _ E. apply (IH H2). now exists x, y.
Qed.

Lemma last_char_snoc (r : string) (c : ascii) :
  last_char (r ++ String c EmptyString) = Some c.
Proof. induction r as [|d r IH]; cbn; [reflexivity | now rewrite IH]. Qed.

Lemma clean_endsb_true (p : ascii -> bool) (s : string) :
  clean_endsb p s = true -> clean_ends p s.
Proof.
  unfold clean_endsb. intro H. apply andb_true_iff in H. destruct H as [H1 H2].
  split.
  - intros c r ->. now apply negb_true_iff.
  - intros r c ->. rewrite last_char_snoc in H2. now apply negb_true_iff.
Qed.

(** A name that passes the check is plain. *)
Lemma plain_nameb_true (s : string) : plain_nameb s = true -> plain_name s.
Proof.
  unfold plain_nameb. intro H. apply andb_true_iff in H. destruct H as [H H3].
  apply andb_true_iff in H. destruct H as [H1 H2].
  split; [now apply clean_endsb_true | split; [now apply clean_endsb_true|]].
  apply occurs_false. now apply negb_true_iff.
Qed.

End NameChecks.

Section FrontEndProperties.

Variable json_loads : string -> json_result.
Variable pydantic_rejects :
  string -> pydict (pytype * field_default) -> option exn.
Variable float_str : float -> string.



(** X14: what the three JSON entry points do with a text that is not the
    text of an object. A text that [json.loads] refuses gives [ValueError]
    with the text of the decoding error; a text that decodes to anything but
    a dictionary gives the [AttributeError] of the call of [items] from the
    builders of entity types and of the mapping table, and [ValueError] from
    the builder of edge types. *)
Theorem text_that_is_not_an_object (json_str : string)
  (log : list log_record) :
  (forall e,
      json_loads json_str = JSONDecodeError e ->
      parse_json_to_entity_types json_loads pydantic_rejects float_str
        json_str log
      = (Raise (ValueError ("Invalid JSON format for entity types: " ++ e)),
         log)
      /\ parse_json_to_edge_types json_loads pydantic_rejects float_str
           json_str log
         = (Raise (ValueError
                     ("Failed to parse edge types: "
                      ++ "Invalid JSON format for entity types: " ++ e)), log)
      /\ parse_json_to_edge_mappings json_loads json_str log
         = (Raise (ValueError ("Invalid JSON format for edge mappings: " ++ e)),
            log))
  /\ forall v,
       json_loads json_str = Decoded v -> (forall d, v <> PyDict d) ->
       parse_json_to_entity_types json_loads pydantic_rejects float_str
         json_str log
       = (Raise (AttributeError
                   ("'" ++ type_name v ++ "' object has no attribute 'items'")),
          log)
       /\ parse_json_to_edge_types json_loads pydantic_rejects float_str
            json_str log
          = (Raise (ValueError
                      ("Failed to parse edge types: '" ++ type_name v
                       ++ "' object has no attribute 'items'")), log)
       /\ parse_json_to_edge_mappings json_loads json_str log
          = (Raise (AttributeError
                      ("'" ++ type_name v
                       ++ "' object has no attribute 'items'")),
             log).
Proof.
  split.
  - intros e H.
    unfold parse_json_to_edge_types, parse_json_to_entity_types,
      parse_json_to_edge_mappings, try_except, bind.
    rewrite H. repeat split.
  - intros v H Hnot.
    unfold parse_json_to_edge_types, parse_json_to_entity_types,
      parse_json_to_edge_mappings, try_except, bind.
    rewrite H. destruct v; try (repeat split; fail). now destruct (Hnot d).
Qed.

End FrontEndProperties.

(** * The further properties on sample inputs *)

Lemma entity_without_fields_is_refused_witness :
  In ("Company", PyDict [("docstring", PyStr "A company")]) MoreSamples.no_fields
  /\ JsonRef.loads (Sample.text (PyDict MoreSamples.no_fields))
     = Decoded (PyDict MoreSamples.no_fields)
  /\ create_entity_types_from_dict Sample.accepts Sample.float_str
       MoreSamples.no_fields []
     = (Raise (ValueError "Entity 'Company' must have 'fields' key"),
        [CreatedEntityType "Person"])
  /\ parse_json_to_entity_types JsonRef.loads Sample.accepts Sample.float_str
       (Sample.text (PyDict MoreSamples.no_fields)) []
     = create_entity_types_from_dict Sample.accepts Sample.float_str
         MoreSamples.no_fields [].
Proof.
  assert (Hin : In ("Company", PyDict [("docstring", PyStr "A company")])
                  MoreSamples.no_fields) by (right; left; reflexivity).
  assert (Hno : forall config,
             PyDict [("docstring", PyStr "A company")] = PyDict config ->
             dict_get String.eqb "fields" config = None)
    by (intros config H; injection H as <-; reflexivity).
  assert (Hj : JsonRef.loads (Sample.text (PyDict MoreSamples.no_fields))
               = Decoded (PyDict MoreSamples.no_fields))
    by (vm_compute; reflexivity).
  destruct (@entity_without_fields_is_refused JsonRef.loads Sample.accepts
              Sample.float_str MoreSamples.no_fields "Company"
              (PyDict [("docstring", PyStr "A company")])
              (Sample.text (PyDict MoreSamples.no_fields)) [] Hin Hno Hj)
    as [Hparse [_ Hfirst]].
  split; [exact Hin | split; [exact Hj | split; [|exact Hparse]]].
  eapply Hfirst
    with (pre := [("Person", PyDict [("fields", PyDict [("name", PyStr "str")])])])
         (post := []); reflexivity.
Defined.

Lemma fields_not_a_dict_raises_AttributeError_witness :
  In ("Person", PyDict [("fields", PyList [PyStr "name"; PyStr "age"])])
    MoreSamples.fields_as_list
  /\ (forall d, PyList [PyStr "name"; PyStr "age"] <> PyDict d)
  /\ JsonRef.loads (Sample.text (PyDict MoreSamples.fields_as_list))
     = Decoded (PyDict MoreSamples.fields_as_list)
  /\ create_entity_types_from_dict Sample.accepts Sample.float_str
       MoreSamples.fields_as_list []
     = (Raise (AttributeError "'list' object has no attribute 'items'"), [])
  /\ parse_json_to_entity_types JsonRef.loads Sample.accepts Sample.float_str
       (Sample.text (PyDict MoreSamples.fields_as_list)) []
     = create_entity_types_from_dict Sample.accepts Sample.float_str
         MoreSamples.fields_as_list [].
Proof.
  assert (Hin : In ("Person",
                    PyDict [("fields", PyList [PyStr "name"; PyStr "age"])])
                  MoreSamples.fields_as_list) by (left; reflexivity).
  assert (Hnot : forall d, PyList [PyStr "name"; PyStr "age"] <> PyDict d)
    by (intros d H; discriminate H).
  assert (Hj : JsonRef.loads (Sample.text (PyDict MoreSamples.fields_as_list))
               = Decoded (PyDict MoreSamples.fields_as_list))
    by (vm_compute; reflexivity).
  destruct (@fields_not_a_dict_raises_AttributeError JsonRef.loads
              Sample.accepts Sample.float_str MoreSamples.fields_as_list
              "Person" [("fields", PyList [PyStr "name"; PyStr "age"])]
              (PyList [PyStr "name"; PyStr "age"])
              (Sample.text (PyDict MoreSamples.fields_as_list)) []
              Hin eq_refl Hnot Hj) as [Hparse [_ Hfirst]].
  split; [exact Hin | split; [exact Hnot | split; [exact Hj|]]].
  split; [|exact Hparse].
  eapply Hfirst with (pre := []) (post := []); reflexivity.
Defined.

Lemma field_type_not_a_string_raises_TypeError_witness :
  In ("age", PyNone) [("name", PyStr "str"); ("age", PyNone)]
  /\ (forall t, PyNone <> PyStr t)
  /\ JsonRef.loads (Sample.text (PyDict MoreSamples.null_field_type))
     = Decoded (PyDict MoreSamples.null_field_type)
  /\ create_entity_types_from_dict Sample.accepts Sample.float_str
       MoreSamples.null_field_type []
     = (Raise (TypeError
                 ("Unsupported field type 'None' for field 'age' in entity "
                  ++ "'Person'. Supported types: " ++ supported_types)), [])
  /\ parse_json_to_entity_types JsonRef.loads Sample.accepts Sample.float_str
       (Sample.text (PyDict MoreSamples.null_field_type)) []
     = create_entity_types_from_dict Sample.accepts Sample.float_str
         MoreSamples.null_field_type [].
Proof.
  assert (Hf : In ("age", PyNone) [("name", PyStr "str"); ("age", PyNone)])
    by (right; left; reflexivity).
  assert (Hnot : forall t, PyNone <> PyStr t) by (intros t H; discriminate H).
  assert (Hj : JsonRef.loads (Sample.text (PyDict MoreSamples.null_field_type))
               = Decoded (PyDict MoreSamples.null_field_type))
    by (vm_compute; reflexivity).
  destruct (@field_type_not_a_string_raises_TypeError JsonRef.loads
              Sample.accepts Sample.float_str MoreSamples.null_field_type
              "Person"
              [("fields", PyDict [("name", PyStr "str"); ("age", PyNone)])]
              [("name", PyStr "str"); ("age", PyNone)] "age" PyNone
              (Sample.text (PyDict MoreSamples.null_field_type)) []
              (or_introl eq_refl) eq_refl Hf Hnot Hj) as [Hparse [_ Hfirst]].
  split; [exact Hf | split; [exact Hnot | split; [exact Hj|]]].
  split; [|exact Hparse].
  destruct (Hfirst [] [] [("name", PyStr "str")] [] [] [] eq_refl eq_refl)
    as [msg [Hrun Hmsg]].
  - constructor; [|constructor]. exists "str". split; [reflexivity | now left].
  - reflexivity.
  - rewrite Hrun, (Hmsg HNone eq_refl). reflexivity.
Defined.

Lemma pydantic_refusal_raises_ValueError_witness :
  fields_from Sample.float_str "Person" [] [("_id", PyStr "int")] []
  = (Return [("_id", (Tint, Ellipsis))], [])
  /\ MoreSamples.refuses_underscore "Person" [("_id", (Tint, Ellipsis))]
     = Some (OtherError "NameError"
               "Fields must not use names with leading underscores")
  /\ JsonRef.loads (Sample.text (PyDict MoreSamples.private_field))
     = Decoded (PyDict MoreSamples.private_field)
  /\ create_entity_types_from_dict MoreSamples.refuses_underscore
       Sample.float_str MoreSamples.private_field []
     = (Raise (ValueError
                 ("Failed to create entity model 'Person': Fields must not "
                  ++ "use names with leading underscores")), [])
  /\ parse_json_to_entity_types JsonRef.loads MoreSamples.refuses_underscore
       Sample.float_str (Sample.text (PyDict MoreSamples.private_field)) []
     = create_entity_types_from_dict MoreSamples.refuses_underscore
         Sample.float_str MoreSamples.private_field [].
Proof.
  assert (Hj : JsonRef.loads (Sample.text (PyDict MoreSamples.private_field))
               = Decoded (PyDict MoreSamples.private_field))
    by (vm_compute; reflexivity).
  destruct (@pydantic_refusal_raises_ValueError JsonRef.loads
              MoreSamples.refuses_underscore Sample.float_str
              MoreSamples.private_field "Person"
              [("fields", PyDict [("_id", PyStr "int")])]
              [("_id", PyStr "int")] [("_id", (Tint, Ellipsis))]
              (OtherError "NameError"
                 "Fields must not use names with leading underscores")
              (Sample.text (PyDict MoreSamples.private_field)) []
              (or_introl eq_refl) eq_refl eq_refl eq_refl Hj)
    as [Hparse [_ Hfirst]].
  split; [reflexivity | split; [reflexivity | split; [exact Hj|]]].
  split; [|exact Hparse].
  eapply Hfirst with (pre := []) (post := []); reflexivity.
Defined.


Lemma entity_types_build_iff_well_formed_witness :
  Forall (well_formed_entity Sample.accepts Sample.float_str) Sample.person
  /\ exists table log',
       create_entity_types_from_dict Sample.accepts Sample.float_str
         Sample.person [] = (Return table, log').
Proof.
  assert (Hwf : Forall (well_formed_entity Sample.accepts Sample.float_str)
                  Sample.person).
  { constructor; [|constructor].
    exists [("fields", PyDict [("name", PyStr "str"); ("age", PyStr "int")]);
            ("docstring", PyStr "A person")],
           [("name", PyStr "str"); ("age", PyStr "int")],
           [("name", (Tstr, Ellipsis)); ("age", (Tint, Ellipsis))].
    split; [reflexivity | split; [reflexivity | split; [|split; reflexivity]]].
    constructor; [|constructor; [|constructor]].
    - exists "str". split; [reflexivity | now left].
    - exists "int". split; [reflexivity | right; now left]. }
  split; [exact Hwf|].
  exact (proj2 (proj1 (@entity_types_build_iff_well_formed JsonRef.loads
                         Sample.accepts Sample.float_str Sample.person []))
           Hwf).
Defined.


Lemma key_without_two_parts_is_refused_witness :
  In ("('A', 'B', 'C')", PyList [PyStr "KNOWS"]) MoreSamples.three_names
  /\ (exists r, "('A', 'B', 'C')" = "('" ++ r)
  /\ (exists r, "('A', 'B', 'C')" = r ++ "')")
  /\ List.length (key_parts "('A', 'B', 'C')") <> 2%nat
  /\ JsonRef.loads (Sample.text (PyDict MoreSamples.three_names))
     = Decoded (PyDict MoreSamples.three_names)
  /\ convert_edge_mappings MoreSamples.three_names []
     = (Raise (ValueError
                 ("Failed to parse edge mapping key '('A', 'B', 'C')': Edge "
                  ++ "mapping key must have exactly 2 entities: "
                  ++ "'('A', 'B', 'C')'")),
        [CreatedEdgeMapping ("A", "B") (PyList [])])
  /\ parse_json_to_edge_mappings JsonRef.loads
       (Sample.text (PyDict MoreSamples.three_names)) []
     = convert_edge_mappings MoreSamples.three_names [].
Proof.
  assert (Hin : In ("('A', 'B', 'C')", PyList [PyStr "KNOWS"])
                  MoreSamples.three_names) by (right; left; reflexivity).
  assert (Hp : exists r, "('A', 'B', 'C')" = "('" ++ r)
    by (exists "A', 'B', 'C')"; reflexivity).
  assert (Hs : exists r, "('A', 'B', 'C')" = r ++ "')")
    by (exists "('A', 'B', 'C"; reflexivity).
  assert (Hlen : List.length (key_parts "('A', 'B', 'C')") <> 2%nat)
    by (intro H; discriminate H).
  assert (Hj : JsonRef.loads (Sample.text (PyDict MoreSamples.three_names))
               = Decoded (PyDict MoreSamples.three_names))
    by (vm_compute; reflexivity).
  destruct (@key_without_two_parts_is_refused JsonRef.loads
              MoreSamples.three_names "('A', 'B', 'C')"
              (PyList [PyStr "KNOWS"])
              (Sample.text (PyDict MoreSamples.three_names)) []
              Hin Hp Hs Hlen Hj) as [Hparse [_ Hfirst]].
  split; [exact Hin | split; [exact Hp | split; [exact Hs|]]].
  split; [exact Hlen | split; [exact Hj | split; [|exact Hparse]]].
  eapply Hfirst with (pre := [("('A', 'B')", PyList [])]) (post := []);
    reflexivity.
Defined.

Lemma edge_mappings_build_iff_well_formed_witness :
  Forall well_formed_entry MoreSamples.works_at_key
  /\ exists table log',
       convert_edge_mappings MoreSamples.works_at_key [] = (Return table, log').
Proof.
  assert (Hwf : Forall well_formed_entry MoreSamples.works_at_key).
  { constructor; [|constructor].
    exists "Person', 'Company", "Person", " 'Company", [PyStr "WORKS_AT"].
    repeat split. }
  split; [exact Hwf|].
  exact (proj2 (proj1 (@edge_mappings_build_iff_well_formed JsonRef.loads
                         MoreSamples.works_at_key [])) Hwf).
Defined.

Lemma edge_table_matches_mapping_witness :
  JsonRef.loads (Sample.text (PyDict Sample.two_spellings))
  = Decoded (PyDict Sample.two_spellings)
  /\ (exists table log',
        parse_json_to_edge_mappings JsonRef.loads
          (Sample.text (PyDict Sample.two_spellings)) []
        = (Return table, log')
        /\ NoDup (map fst table)
        /\ exists new, log' = ([] ++ new)%list
                       /\ Forall2 logged_as Sample.two_spellings new).
Proof.
  assert (Hj : JsonRef.loads (Sample.text (PyDict Sample.two_spellings))
               = Decoded (PyDict Sample.two_spellings))
    by (vm_compute; reflexivity).
  split; [exact Hj|].
  eexists. eexists. split; [vm_compute; reflexivity|].
  match goal with
  | |- NoDup (map fst ?t) /\ (exists new, ?l = _ /\ _) =>
      destruct (@edge_table_matches_mapping JsonRef.loads Sample.two_spellings
                  (Sample.text (PyDict Sample.two_spellings)) [] l t Hj)
        as [_ [Hnd [Hlog _]]]
  end.
  - vm_compute. reflexivity.
  - split; [exact Hnd | exact Hlog].
Defined.

Lemma key_format_round_trip_witness :
  plain_name "Person" /\ plain_name "Company"
  /\ (forall r, "Company" <> "," ++ r)
  /\ all_chars PyStr.isspace " "
  /\ JsonRef.loads (Sample.text (PyDict MoreSamples.works_at_key))
     = Decoded (PyDict MoreSamples.works_at_key)
  /\ key_parts "('Person', 'Company')" = ["Person"; "Company"]
  /\ convert_edge_mappings MoreSamples.works_at_key []
     = (Return [(("Person", "Company"), PyList [PyStr "WORKS_AT"])],
        [CreatedEdgeMapping ("Person", "Company") (PyList [PyStr "WORKS_AT"])])
  /\ parse_json_to_edge_mappings JsonRef.loads
       (Sample.text (PyDict MoreSamples.works_at_key)) []
     = (Return [(("Person", "Company"), PyList [PyStr "WORKS_AT"])],
        [CreatedEdgeMapping ("Person", "Company") (PyList [PyStr "WORKS_AT"])]).
Proof.
  assert (Ha : plain_name "Person")
    by (apply NameChecks.plain_nameb_true; reflexivity).
  assert (Hb : plain_name "Company")
    by (apply NameChecks.plain_nameb_true; reflexivity).
  assert (Hc : forall r, "Company" <> "," ++ r)
    by (intros r H; discriminate H).
  assert (Hw : all_chars PyStr.isspace " ") by (split; [reflexivity | exact I]).
  assert (Hj : JsonRef.loads (Sample.text (PyDict MoreSamples.works_at_key))
               = Decoded (PyDict MoreSamples.works_at_key))
    by (vm_compute; reflexivity).
  split; [exact Ha | split; [exact Hb | split; [exact Hc|]]].
  split; [exact Hw | split; [exact Hj|]].
  exact (@key_format_round_trip JsonRef.loads "Person" "Company" " "
           [PyStr "WORKS_AT"]
           (Sample.text (PyDict MoreSamples.works_at_key)) []
           Ha Hb Hc Hw Hj).
Defined.



Lemma text_that_is_not_an_object_witness :
  JsonRef.loads "[1, 2]" = Decoded (PyList [PyInt 1; PyInt 2])
  /\ (forall d, PyList [PyInt 1; PyInt 2] <> PyDict d)
  /\ parse_json_to_entity_types JsonRef.loads Sample.accepts Sample.float_str
       "[1, 2]" []
     = (Raise (AttributeError "'list' object has no attribute 'items'"), [])
  /\ parse_json_to_edge_types JsonRef.loads Sample.accepts Sample.float_str
       "[1, 2]" []
     = (Raise (ValueError
                 ("Failed to parse edge types: "
                  ++ "'list' object has no attribute 'items'")), [])
  /\ parse_json_to_edge_mappings JsonRef.loads "[1, 2]" []
     = (Raise (AttributeError "'list' object has no attribute 'items'"), []).
Proof.
  assert (Hj : JsonRef.loads "[1, 2]" = Decoded (PyList [PyInt 1; PyInt 2]))
    by (vm_compute; reflexivity).
  assert (Hnot : forall d, PyList [PyInt 1; PyInt 2] <> PyDict d)
    by (intros d H; discriminate H).
  split; [exact Hj | split; [exact Hnot|]].
  exact (proj2 (@text_that_is_not_an_object JsonRef.loads Sample.accepts
                  Sample.float_str "[1, 2]" [])
           (PyList [PyInt 1; PyInt 2]) Hj Hnot).
Defined.

(** * Names that the key format cannot carry *)

Module SeparatorFacts.
Import PyStr.

Lemma empty_holds_nothing (sep : string) :
  sep <> EmptyString -> ~ contains EmptyString sep.
Proof.
  intros Hsep [x [y E]]. destruct x; [|discriminate E].
  destruct sep; [now apply Hsep | discriminate E].
Qed.

(** The first part of a split is a prefix of the string. *)
Lemma first_part_prefix (s p : string) (ps : list string) :
  split_from "'," 0 s = p :: ps -> exists r, s = p ++ r.
Proof.
  intro H.
  assert (E : join "'," (split_from "'," 0 s) = s)
    by (now rewrite PyStrFacts.join_split_from).
  rewrite H in E. destruct ps as [|q ps].
  - exists EmptyString. cbn in E. now rewrite PyStrFacts.append_nil_r.
  - rewrite PyStrFacts.join_cons in E by discriminate.
    now exists ("'," ++ join "'," (q :: ps)).
Qed.

(** No part of a split on quote-comma holds a quote-comma. *)
Lemma split_parts_hold_no_separator (s : string) :
  forall skip, Forall (fun p => ~ contains p "',") (split_from "'," skip s).
Proof.
  induction s as [|c s IH]; intro skip.
  - cbn. constructor; [|constructor]. now apply empty_holds_nothing.
  - cbn [split_from]. destruct skip as [|k]; [|apply IH].
    destruct (startswith (String c s) "',") eqn:E.
    + constructor; [now apply empty_holds_nothing | apply IH].
    + specialize (IH 0%nat).
      destruct (split_from "'," 0 s) as [|p ps] eqn:Es.
      * cbn. constructor; [|constructor]. intros [x [y H]].
        destruct x as [|d [|d' x]]; discriminate H.
      * cbn [cons_head]. inversion IH as [|? ? Hp Hps]; subst.
        constructor; [|assumption]. intros [x [y H]].
        destruct x as [|d x]; cbn in H.
        -- injection H as -> Hp'.
           destruct (first_part_prefix _ Es) as [r Hr].
           assert (Hs : startswith (String "'" s) "'," = true).
           { apply PyStrFacts.startswith_iff. exists (y ++ r).
             rewrite Hr, Hp'. reflexivity. }
           congruence.
        -- injection H as _ H. apply Hp. now exists x, y.
Qed.

(** What holds no quote-comma still holds none after a strip. *)
Lemma strip_by_holds_no_more (p : ascii -> bool) (s sep : string) :
  ~ contains s sep -> ~ contains (strip_by p s) sep.
Proof.
  intros H [x [y E]].
  destruct (PyStrFacts.strip_by_spec p s) as [a [b [Hs _]]].
  apply H. exists (a ++ x), (y ++ b).
  rewrite Hs, E. now rewrite !PyStrFacts.append_assoc.
Qed.

End SeparatorFacts.

Section SeparatorProperties.

Variable json_loads : string -> json_result.

Lemma key_parts_hold_no_separator (key_str part : string) :
  In part (key_parts key_str) -> ~ contains part "',".
Proof.
  unfold key_parts. intro H. apply in_map_iff in H.
  destruct H as [x [<- Hx]].
  apply SeparatorFacts.strip_by_holds_no_more,
    SeparatorFacts.strip_by_holds_no_more.
  pose proof (SeparatorFacts.split_parts_hold_no_separator
                (PyStr.slice key_str 2 (-2)) 0) as Hall.
  rewrite Forall_forall in Hall. now apply Hall.
Qed.

(** X15: no name of a pair in a table of edge mappings holds a quote-comma:
    a key written for a name that holds one is split inside the name, so it
    is refused or stored under other names. *)
Theorem table_names_hold_no_separator
  (edge_data : pydict pyval) (json_str : string)
  (log log' : list log_record) (table : edge_table) :
  json_loads json_str = Decoded (PyDict edge_data) ->
  parse_json_to_edge_mappings json_loads json_str log = (Return table, log') ->
  convert_edge_mappings edge_data log = (Return table, log')
  /\ (forall pair v,
        In (pair, v) table ->
        ~ contains (fst pair) "'," /\ ~ contains (snd pair) "',")
  /\ forall a b key_str,
       contains a "'," \/ contains b "'," -> key_parts key_str <> [a; b].
Proof.
  intros Hjson Hrun.
  rewrite (@parse_json_to_edge_mappings_decoded json_loads json_str
             edge_data log Hjson) in Hrun.
  split; [assumption | split].
  - rewrite convert_edge_mappings_from_nil in Hrun.
    destruct (edge_mappings_from_origin _ _ _ Hrun) as [_ [Horigin _]].
    intros pair v Hin.
    destruct (Horigin pair v Hin) as [[]|[k [_ [Hk _]]]].
    split; apply key_parts_hold_no_separator with k; rewrite Hk; cbn; auto.
  - intros a b key_str Hab Hk.
    destruct Hab as [H|H]; revert H;
      apply key_parts_hold_no_separator with key_str; rewrite Hk; cbn; auto.
Qed.

End SeparatorProperties.

Lemma table_names_hold_no_separator_witness :
  JsonRef.loads (Sample.text (PyDict MoreSamples.works_at_key))
  = Decoded (PyDict MoreSamples.works_at_key)
  /\ parse_json_to_edge_mappings JsonRef.loads
       (Sample.text (PyDict MoreSamples.works_at_key)) []
     = (Return [(("Person", "Company"), PyList [PyStr "WORKS_AT"])],
        [CreatedEdgeMapping ("Person", "Company") (PyList [PyStr "WORKS_AT"])])
  /\ ~ contains "Person" "'," /\ ~ contains "Company" "',".
Proof.
  assert (Hj : JsonRef.loads (Sample.text (PyDict MoreSamples.works_at_key))
               = Decoded (PyDict MoreSamples.works_at_key))
    by (vm_compute; reflexivity).
  assert (Hrun : parse_json_to_edge_mappings JsonRef.loads
                   (Sample.text (PyDict MoreSamples.works_at_key)) []
                 = (Return [(("Person", "Company"), PyList [PyStr "WORKS_AT"])],
                    [CreatedEdgeMapping ("Person", "Company")
                       (PyList [PyStr "WORKS_AT"])]))
    by (vm_compute; reflexivity).
  split; [exact Hj | split; [exact Hrun|]].
  destruct (@table_names_hold_no_separator JsonRef.loads
              MoreSamples.works_at_key
              (Sample.text (PyDict MoreSamples.works_at_key)) [] _ _ Hj Hrun)
    as [_ [H _]].
  exact (H ("Person", "Company") (PyList [PyStr "WORKS_AT"])
           (or_introl eq_refl)).
Defined.
